(** * aio_pika.channel: the Channel lifecycle state machine

    A shallow embedding of [src/aio_pika/channel.py].  The [Channel] object
    is a record of its attributes; every method is a computation in a small
    state-and-exception monad over that record and a chronological trace of
    the actions the method performs on its collaborators (the connection,
    the underlying transport channel, the callback collections, the logger).

    The methods are coroutines.  Each [await] on a collaborator is resolved
    by an explicit outcome argument that says what the collaborator did
    while the coroutine was suspended.  [initialize], [close] and [reopen]
    hold [__operation_lock] for their whole critical section, so they are
    modelled as atomic with respect to one another and the lock itself is
    not represented. *)

From Stdlib Require Import String List ZArith Bool DecimalString Lia.
Import ListNotations.
Open Scope string_scope.

(** ** Exceptions and results *)

Inductive Exn : Type :=
| RuntimeError (msg : string)
| ChannelInvalidStateError (msg : string)   (* aiormq.exceptions *)
| AttributeError (attr : string)
| CancelledError
| ExternalError (msg : string).             (* raised by a collaborator *)

Inductive Result (A : Type) : Type :=
| Ok (a : A)
| Raise (e : Exn).
Arguments Ok {A} a.
Arguments Raise {A} e.

(** ** Collaborators *)

Definition ObjId := nat.         (* identity of a Python object *)

Inductive ExchangeType : Type :=
| FANOUT | DIRECT | TOPIC | HEADERS | X_DELAYED_MESSAGE | X_CONSISTENT_HASH.

Definition Arguments_t := option (list (string * string)).
Definition TimeoutType := option Z.

(** Modelled from the spec: the Exchange class of exchange.py, which is not
    among the sources.  An Exchange is a value object holding the declared
    settings and a back-reference to its owning channel; [ex_type] is
    [None] when the caller leaves the type to the class default. *)
Record Exchange : Type := {
  ex_channel : ObjId;
  ex_name : string;
  ex_type : option (ExchangeType + string);
  ex_durable : option bool;
  ex_auto_delete : bool;
  ex_internal : bool;
  ex_passive : bool;
  ex_arguments : Arguments_t
}.

(** Modelled from the spec: the Transaction class of transaction.py, which
    is not among the sources; it is bound to the channel it was made from. *)
Record Transaction : Type := { tx_channel : ObjId }.

(** The aiormq channel behind [UnderlayChannel.channel]. *)
Record AiormqChannel : Type := {
  ch_id : ObjId;
  ch_number : Z;
  ch_is_closed : bool;
  ch_on_return_callbacks : list ObjId   (* owners of registered bridges *)
}.

Record UnderlayChannel : Type := { uc_channel : AiormqChannel }.

Record Connection : Type := { conn_id : ObjId; conn_loop : ObjId }.

(** A subscriber of a CallbackCollection: its identity and what happens
    when it is called ([None]: it returns, [Some e]: it raises [e]). *)
Record Handler : Type := { h_id : ObjId; h_raises : option Exn }.

Definition CallbackCollection := list Handler.

(** An [asyncio.Future] that is done. *)
Inductive Future : Type :=
| FutDone (exc : option Exn)
| FutCancelled.

(** ** The Channel object *)

Record Channel : Type := {
  self_id : ObjId;
  loop : ObjId;
  ready : bool;                               (* asyncio.Event *)
  _is_closed_by_user : bool;
  _channel_number : option Z;
  _connection : Connection;
  close_callbacks : CallbackCollection;
  return_callbacks : CallbackCollection;
  publisher_confirms : bool;
  _on_return_raises : bool;
  _delivery_tag : Z;
  default_exchange : option Exchange;         (* absent until _open *)
  _channel : option UnderlayChannel;          (* absent until _open *)
  _transport : option ObjId;                  (* absent until _open *)
  _transport_connection : option ObjId        (* never assigned here *)
}.

Definition set_ready (b : bool) (c : Channel) : Channel :=
  {| self_id := self_id c; loop := loop c; ready := b;
     _is_closed_by_user := _is_closed_by_user c;
     _channel_number := _channel_number c; _connection := _connection c;
     close_callbacks := close_callbacks c;
     return_callbacks := return_callbacks c;
     publisher_confirms := publisher_confirms c;
     _on_return_raises := _on_return_raises c;
     _delivery_tag := _delivery_tag c;
     default_exchange := default_exchange c; _channel := _channel c;
     _transport := _transport c;
     _transport_connection := _transport_connection c |}.

Definition set_is_closed_by_user (b : bool) (c : Channel) : Channel :=
  {| self_id := self_id c; loop := loop c; ready := ready c;
     _is_closed_by_user := b;
     _channel_number := _channel_number c; _connection := _connection c;
     close_callbacks := close_callbacks c;
     return_callbacks := return_callbacks c;
     publisher_confirms := publisher_confirms c;
     _on_return_raises := _on_return_raises c;
     _delivery_tag := _delivery_tag c;
     default_exchange := default_exchange c; _channel := _channel c;
     _transport := _transport c;
     _transport_connection := _transport_connection c |}.

Definition set_delivery_tag (n : Z) (c : Channel) : Channel :=
  {| self_id := self_id c; loop := loop c; ready := ready c;
     _is_closed_by_user := _is_closed_by_user c;
     _channel_number := _channel_number c; _connection := _connection c;
     close_callbacks := close_callbacks c;
     return_callbacks := return_callbacks c;
     publisher_confirms := publisher_confirms c;
     _on_return_raises := _on_return_raises c;
     _delivery_tag := n;
     default_exchange := default_exchange c; _channel := _channel c;
     _transport := _transport c;
     _transport_connection := _transport_connection c |}.

Definition set_default_exchange (e : option Exchange) (c : Channel)
  : Channel :=
  {| self_id := self_id c; loop := loop c; ready := ready c;
     _is_closed_by_user := _is_closed_by_user c;
     _channel_number := _channel_number c; _connection := _connection c;
     close_callbacks := close_callbacks c;
     return_callbacks := return_callbacks c;
     publisher_confirms := publisher_confirms c;
     _on_return_raises := _on_return_raises c;
     _delivery_tag := _delivery_tag c;
     default_exchange := e; _channel := _channel c;
     _transport := _transport c;
     _transport_connection := _transport_connection c |}.

Definition set_channel (u : option UnderlayChannel) (c : Channel)
  : Channel :=
  {| self_id := self_id c; loop := loop c; ready := ready c;
     _is_closed_by_user := _is_closed_by_user c;
     _channel_number := _channel_number c; _connection := _connection c;
     close_callbacks := close_callbacks c;
     return_callbacks := return_callbacks c;
     publisher_confirms := publisher_confirms c;
     _on_return_raises := _on_return_raises c;
     _delivery_tag := _delivery_tag c;
     default_exchange := default_exchange c; _channel := u;
     _transport := _transport c;
     _transport_connection := _transport_connection c |}.

Definition set_transport (t : option ObjId) (c : Channel) : Channel :=
  {| self_id := self_id c; loop := loop c; ready := ready c;
     _is_closed_by_user := _is_closed_by_user c;
     _channel_number := _channel_number c; _connection := _connection c;
     close_callbacks := close_callbacks c;
     return_callbacks := return_callbacks c;
     publisher_confirms := publisher_confirms c;
     _on_return_raises := _on_return_raises c;
     _delivery_tag := _delivery_tag c;
     default_exchange := default_exchange c; _channel := _channel c;
     _transport := t;
     _transport_connection := _transport_connection c |}.

Definition set_transport_connection (t : option ObjId) (c : Channel)
  : Channel :=
  {| self_id := self_id c; loop := loop c; ready := ready c;
     _is_closed_by_user := _is_closed_by_user c;
     _channel_number := _channel_number c; _connection := _connection c;
     close_callbacks := close_callbacks c;
     return_callbacks := return_callbacks c;
     publisher_confirms := publisher_confirms c;
     _on_return_raises := _on_return_raises c;
     _delivery_tag := _delivery_tag c;
     default_exchange := default_exchange c; _channel := _channel c;
     _transport := _transport c;
     _transport_connection := t |}.

(** ** Actions on collaborators, in the order they happen *)

Inductive LogLevel : Type := DEBUG | WARNING | ERROR.

Inductive Event : Type :=
| EvLog (level : LogLevel) (msg : string)
| EvConnectedWait (conn : ObjId)
| EvCreateChannel (transport : ObjId) (confirms raises : bool)
                  (number : option Z)
| EvUnderlayClose (handle : ObjId)
| EvCallback (handler : ObjId) (sender : ObjId) (reason : option Exn)
             (ready_seen : bool)
| EvReadySet
| EvReadyClear
| EvAddReturnCallback (handle : ObjId) (owner : ObjId)
| EvExchangeDeclare (handle : ObjId) (ex : Exchange) (timeout : TimeoutType).

(** ** The monad: state of [self], trace, exceptions *)

Record World : Type := { self : Channel; trace : list Event }.

Definition M (A : Type) : Type := World -> Result A * World.

Definition ret {A} (a : A) : M A := fun w => (Ok a, w).

Definition raise {A} (e : Exn) : M A := fun w => (Raise e, w).

Definition bind {A B} (m : M A) (k : A -> M B) : M B :=
  fun w =>
    match m w with
    | (Ok a, w1) => k a w1
    | (Raise e, w1) => (Raise e, w1)
    end.

Declare Scope chan_scope.
Delimit Scope chan_scope with chan.
Notation "x <- m ;; k" := (bind m (fun x => k))
  (at level 61, m at next level, right associativity) : chan_scope.
Notation "m ;; k" := (bind m (fun _ => k))
  (at level 61, right associativity) : chan_scope.
Open Scope chan_scope.

(** [try: body finally: fin] *)
Definition try_finally {A} (body : M A) (fin : M unit) : M A :=
  fun w =>
    match body w with
    | (r, w1) =>
        match fin w1 with
        | (Ok _, w2) => (r, w2)
        | (Raise e, w2) => (Raise e, w2)
        end
    end.

Definition read {A} (f : Channel -> A) : M A :=
  fun w => (Ok (f (self w)), w).

Definition update (f : Channel -> Channel) : M unit :=
  fun w => (Ok tt, {| self := f (self w); trace := trace w |}).

Definition emit (e : Event) : M unit :=
  fun w => (Ok tt, {| self := self w; trace := trace w ++ [e] |}).

(** Attribute access that raises [AttributeError] when the attribute was
    never assigned or was deleted. *)
Definition getattr {A} (name : string) (f : Channel -> option A) : M A :=
  fun w =>
    match f (self w) with
    | Some a => (Ok a, w)
    | None => (Raise (AttributeError name), w)
    end.

(** ** Construction *)

Definition dquote : string :=
  String (Ascii.Ascii false true false false false true false false)
         EmptyString.

(** ["on_return_raises" not applicable without "publisher_confirms"] *)
Definition msg_on_return_raises : string :=
  dquote ++ "on_return_raises" ++ dquote ++ " not applicable without "
         ++ dquote ++ "publisher_confirms" ++ dquote.

(** What a call of the constructor leaves behind: the object or the
    exception, the attributes assigned so far in assignment order, and the
    actions performed on collaborators. *)
Record Constructed : Type := {
  made : Result Channel;
  assigned : list string;
  performed : list Event
}.

Definition __init__ (self_ : ObjId) (connection : Connection)
    (channel_number : option Z)
    (publisher_confirms_ on_return_raises : bool) : Constructed :=
  if negb publisher_confirms_ && on_return_raises then
    {| made := Raise (RuntimeError msg_on_return_raises);
       assigned := []; performed := [] |}
  else
    {| made := Ok {| self_id := self_;
                     loop := conn_loop connection;
                     ready := false;
                     _is_closed_by_user := false;
                     _channel_number := channel_number;
                     _connection := connection;
                     close_callbacks := [];
                     return_callbacks := [];
                     publisher_confirms := publisher_confirms_;
                     _on_return_raises := on_return_raises;
                     _delivery_tag := 0;
                     default_exchange := None;
                     _channel := None;
                     _transport := None;
                     _transport_connection := None |};
       assigned := ["loop"; "ready"; "__operation_lock";
                    "_is_closed_by_user"; "_channel_number"; "_connection";
                    "close_callbacks"; "return_callbacks";
                    "publisher_confirms"; "_on_return_raises";
                    "_delivery_tag"];
       performed := [] |}.

(** ** Properties *)

Definition is_initialized : M bool := read ready.

Definition is_closed : M bool :=
  i <- is_initialized ;;
  u <- read _is_closed_by_user ;;
  if negb i || u then ret true
  else
    uc <- getattr "_channel" _channel ;;
    ret (ch_is_closed (uc_channel uc)).

Definition msg_not_opened : string := "Channel was not opened".
Definition msg_closed : string := "Channel has been closed".

Definition channel : M AiormqChannel :=
  i <- is_initialized ;;
  if negb i then raise (ChannelInvalidStateError msg_not_opened)
  else
    c <- is_closed ;;
    if c then raise (ChannelInvalidStateError msg_closed)
    else
      uc <- getattr "_channel" _channel ;;
      ret (uc_channel uc).

(** ** The ready latch *)

Definition ready_set : M unit := update (set_ready true) ;; emit EvReadySet.

Definition ready_clear : M unit :=
  update (set_ready false) ;; emit EvReadyClear.

(** ** Close notification *)

(** [closing.exception()] of a done future. *)
Definition Future_exception (f : Future) : M (option Exn) :=
  match f with
  | FutDone e => ret e
  | FutCancelled => raise CancelledError
  end.

(** Modelled from the spec: the call operator of CallbackCollection
    (tools.py is not among the sources).  Every handler is called in
    subscription order with the owner and the same argument; a handler that
    fails is logged and the remaining handlers still run; nothing
    propagates to the caller.  Each call records the value of the ready
    latch the handler finds. *)
Fixpoint CallbackCollection_call (sender : ObjId) (hs : CallbackCollection)
    (arg : option Exn) : M unit :=
  match hs with
  | [] => ret tt
  | h :: hs' =>
      r <- read ready ;;
      emit (EvCallback (h_id h) sender arg r) ;;
      match h_raises h with
      | Some _ => emit (EvLog ERROR "Callback error")
      | None => ret tt
      end ;;
      CallbackCollection_call sender hs' arg
  end.

Definition __on_close (closing : Future) : M unit :=
  try_finally
    (e <- Future_exception closing ;;
     sid <- read self_id ;;
     cbs <- read close_callbacks ;;
     CallbackCollection_call sid cbs e)
    ready_clear.

(** ** What the transport does *)

Definition mark_closed (u : UnderlayChannel) : UnderlayChannel :=
  {| uc_channel :=
       {| ch_id := ch_id (uc_channel u);
          ch_number := ch_number (uc_channel u);
          ch_is_closed := true;
          ch_on_return_callbacks :=
            ch_on_return_callbacks (uc_channel u) |} |}.

(** Modelled from the spec: a close event of the underlying transport
    channel.  The handle becomes closed and the transport invokes the
    notification handler it was given at creation, once, with the closing
    future; the handler runs as a callback of the event loop, so what it
    raises does not reach any caller of the Channel. *)
Definition close_event (closing : Future) : M unit :=
  update (fun c => set_channel (option_map mark_closed (_channel c)) c) ;;
  fun w => (Ok tt, snd (__on_close closing w)).

(** What happens while [close] awaits [self._channel.close()]: whether the
    close event was delivered meanwhile, and whether the awaited call
    raised. *)
Record CloseOutcome : Type := {
  co_closing : option Future;
  co_raises : option Exn
}.

(** [UnderlayChannel.close] (abc.py is not among the sources): its effect
    on the Channel is the outcome it is given. *)
Definition UnderlayChannel_close (u : UnderlayChannel) (o : CloseOutcome)
  : M unit :=
  emit (EvUnderlayClose (ch_id (uc_channel u))) ;;
  match co_closing o with
  | Some f => close_event f
  | None => ret tt
  end ;;
  match co_raises o with
  | Some e => raise e
  | None => ret tt
  end.

(** ** close *)

(** [close] is wrapped by the [task] decorator of tools.py, which runs the
    coroutine as a task of the event loop; the result below is what
    awaiting that task gives its caller.  [exc] is accepted and not passed
    on. *)
Definition close (exc : option Exn) (o : CloseOutcome) : M unit :=
  i <- is_initialized ;;
  if negb i then emit (EvLog WARNING "Channel not opened")
  else
    emit (EvLog DEBUG "Closing channel %r") ;;
    try_finally
      (uc <- getattr "_channel" _channel ;; UnderlayChannel_close uc o)
      (update (set_is_closed_by_user true)).

(** ** Opening *)

(** Modelled from the spec: the constructor of the Exchange class, which
    stores its arguments. *)
Definition EXCHANGE_CLASS (chan : ObjId) (name : string)
    (type : option (ExchangeType + string)) (durable : option bool)
    (auto_delete internal passive : bool) (arguments : Arguments_t)
  : Exchange :=
  {| ex_channel := chan; ex_name := name; ex_type := type;
     ex_durable := durable; ex_auto_delete := auto_delete;
     ex_internal := internal; ex_passive := passive;
     ex_arguments := arguments |}.

(** What happens while [_open] is suspended: whether waiting for the
    connection raised, the transport the connection then has, and what
    [UnderlayChannel.create_channel] produced. *)
Record OpenOutcome : Type := {
  oo_wait : option Exn;
  oo_transport : ObjId;
  oo_create : Result AiormqChannel
}.

Definition _open (o : OpenOutcome) : M unit :=
  conn <- read _connection ;;
  emit (EvConnectedWait (conn_id conn)) ;;
  match oo_wait o with
  | Some e => raise e
  | None => ret tt
  end ;;
  update (set_transport (Some (oo_transport o))) ;;
  pc <- read publisher_confirms ;;
  orr <- read _on_return_raises ;;
  num <- read _channel_number ;;
  emit (EvCreateChannel (oo_transport o) pc orr num) ;;
  uc <- match oo_create o with
        | Ok h => ret {| uc_channel := h |}
        | Raise e => raise e
        end ;;
  update (set_channel (Some uc)) ;;
  update (set_delivery_tag 0) ;;
  sid <- read self_id ;;
  update (set_default_exchange
            (Some (EXCHANGE_CLASS sid "" (Some (inl DIRECT)) (Some false)
                                  false false false None))).

Definition add_owner (owner : ObjId) (l : list ObjId) : list ObjId :=
  if existsb (Nat.eqb owner) l then l else l ++ [owner].

Definition add_return_callback (owner : ObjId) (u : UnderlayChannel)
  : UnderlayChannel :=
  {| uc_channel :=
       {| ch_id := ch_id (uc_channel u);
          ch_number := ch_number (uc_channel u);
          ch_is_closed := ch_is_closed (uc_channel u);
          ch_on_return_callbacks :=
            add_owner owner (ch_on_return_callbacks (uc_channel u)) |} |}.

Definition _on_initialized : M unit :=
  h <- channel ;;
  sid <- read self_id ;;
  emit (EvAddReturnCallback (ch_id h) sid) ;;
  update (fun c =>
            set_channel (option_map (add_return_callback sid) (_channel c))
                        c).

Definition initialize (timeout : TimeoutType) (o : OpenOutcome) : M unit :=
  i <- is_initialized ;;
  u <- read _is_closed_by_user ;;
  if i then raise (RuntimeError "Already initialized")
  else if u then raise (RuntimeError "Can't initialize closed channel")
  else
    _open o ;;
    ready_set ;;
    _on_initialized.

Definition reopen (o : OpenOutcome) : M unit :=
  emit (EvLog DEBUG "Start reopening channel %r") ;;
  update (set_channel None) ;;
  update (set_transport_connection None) ;;
  update (set_is_closed_by_user false) ;;
  emit (EvLog DEBUG "Reopening channel %r") ;;
  _open o ;;
  ready_set.

(** ** Exchanges *)

(** Modelled from the spec: [Exchange.declare] (exchange.py is not among
    the sources).  The exchange issues its declare operation through the
    guarded live-handle accessor of its owning channel; [reply] is what the
    broker answers ([None]: declared, [Some e]: rejected with [e]). *)
Definition Exchange_declare (ex : Exchange) (timeout : TimeoutType)
    (reply : option Exn) : M unit :=
  h <- channel ;;
  emit (EvExchangeDeclare (ch_id h) ex timeout) ;;
  match reply with
  | Some e => raise e
  | None => ret tt
  end.

Definition declare_exchange (name : string) (type : ExchangeType + string)
    (durable : option bool) (auto_delete internal passive : bool)
    (arguments : Arguments_t) (timeout : TimeoutType)
    (reply : option Exn) : M Exchange :=
  let durable :=
    if auto_delete && match durable with None => true | Some _ => false end
    then Some false else durable in
  sid <- read self_id ;;
  let exchange :=
    EXCHANGE_CLASS sid name (Some type) durable auto_delete internal
                   passive arguments in
  Exchange_declare exchange timeout reply ;;
  emit (EvLog DEBUG "Exchange declared %r") ;;
  ret exchange.

Definition get_exchange (name : string) (ensure : bool)
    (reply : option Exn) : M Exchange :=
  if ensure then
    declare_exchange name (inl DIRECT) (Some false) false false true None
                     None reply
  else
    sid <- read self_id ;;
    ret (EXCHANGE_CLASS sid name None (Some false) false false true None).

(** ** Transactions *)

Definition msg_transaction : string :=
  "Cannot create transaction when publisher confirms are enabled".

Definition transaction : M Transaction :=
  pc <- read publisher_confirms ;;
  if pc then raise (RuntimeError msg_transaction)
  else
    sid <- read self_id ;;
    ret {| tx_channel := sid |}.

(** ** Runs *)

(** The calls a run of a Channel is made of: the user's and the
    transport's. *)
Inductive Call : Type :=
| CInitialize (timeout : TimeoutType) (o : OpenOutcome)
| CClose (exc : option Exn) (o : CloseOutcome)
| CReopen (o : OpenOutcome)
| CPeerClose (closing : Future).

Definition call (k : Call) : M unit :=
  match k with
  | CInitialize t o => initialize t o
  | CClose e o => close e o
  | CReopen o => reopen o
  | CPeerClose f => close_event f
  end.

(** Perform the calls in order, whatever each one returns or raises, and
    keep the result of every call. *)
Fixpoint perform (ks : list Call) (w : World) : list (Result unit) * World :=
  match ks with
  | [] => ([], w)
  | k :: ks' =>
      let (r, w1) := call k w in
      let (rs, w2) := perform ks' w1 in
      (r :: rs, w2)
  end.

Definition fresh (c : Channel) : World := {| self := c; trace := [] |}.

(** ** Reading a trace *)

Definition is_callback (e : Event) : bool :=
  match e with
  | EvCallback _ _ _ _ => true
  | _ => false
  end.

Definition is_latch_change (e : Event) : bool :=
  match e with
  | EvReadySet | EvReadyClear => true
  | _ => false
  end.

(** The calls that open the channel. *)
Definition opens (k : Call) : bool :=
  match k with
  | CInitialize _ _ | CReopen _ => true
  | CClose _ _ | CPeerClose _ => false
  end.

(** The close calls of a run, each with the outcome of its underlying
    close. *)
Definition closes (l : list (option Exn * CloseOutcome)) : list Call :=
  map (fun eo => CClose (fst eo) (snd eo)) l.

(** ** Concrete objects used in the examples *)

Definition conn0 : Connection := {| conn_id := 1; conn_loop := 2 |}.

Definition handle0 : AiormqChannel :=
  {| ch_id := 10; ch_number := 1; ch_is_closed := false;
     ch_on_return_callbacks := [] |}.

Definition open_ok : OpenOutcome :=
  {| oo_wait := None; oo_transport := 3; oo_create := Ok handle0 |}.

(** The underlying close fails and no close notification is delivered. *)
Definition close_fails : CloseOutcome :=
  {| co_closing := None;
     co_raises := Some (ExternalError "connection lost") |}.

(** The underlying close succeeds and the close notification is delivered
    while it is awaited. *)
Definition close_clean : CloseOutcome :=
  {| co_closing := Some (FutDone None); co_raises := None |}.

(** [Channel(conn0)] with the default flags, as constructed. *)
Definition chan0 : Channel :=
  {| self_id := 0; loop := 2; ready := false; _is_closed_by_user := false;
     _channel_number := None; _connection := conn0;
     close_callbacks := []; return_callbacks := [];
     publisher_confirms := true; _on_return_raises := false;
     _delivery_tag := 0; default_exchange := None; _channel := None;
     _transport := None; _transport_connection := None |}.

(** A handle on which channel 0 has registered its return bridge. *)
Definition add_return_bridge0 (h : AiormqChannel) : AiormqChannel :=
  uc_channel (add_return_callback 0 {| uc_channel := h |}).

(** [chan0] after [initialize] succeeded. *)
Definition opened0 : World := snd (initialize None open_ok (fresh chan0)).

(** [opened0] after a [close] whose underlying close failed: closed by the
    user, while the latch is still set and the handle still says open. *)
Definition user_closed0 : World :=
  snd (close None close_fails opened0).

(** A close callback that returns normally. *)
Definition handler0 : Handler := {| h_id := 20; h_raises := None |}.

(** [opened0] with [handler0] subscribed to its close callbacks, and an
    empty trace. *)
Definition subscribed0 : World :=
  {| self :=
       {| self_id := self_id (self opened0);
          loop := loop (self opened0);
          ready := ready (self opened0);
          _is_closed_by_user := _is_closed_by_user (self opened0);
          _channel_number := _channel_number (self opened0);
          _connection := _connection (self opened0);
          close_callbacks := [handler0];
          return_callbacks := return_callbacks (self opened0);
          publisher_confirms := publisher_confirms (self opened0);
          _on_return_raises := _on_return_raises (self opened0);
          _delivery_tag := _delivery_tag (self opened0);
          default_exchange := default_exchange (self opened0);
          _channel := _channel (self opened0);
          _transport := _transport (self opened0);
          _transport_connection := _transport_connection (self opened0) |};
     trace := [] |}.

(** [opened0] after the peer closed the channel with a broker error. *)
Definition peer_closed0 : World :=
  snd (close_event (FutDone (Some (ExternalError "NOT_FOUND"))) opened0).

(** ** The channel number and its printing *)

Definition number : M (option Z) :=
  i <- is_initialized ;;
  if i then
    h <- channel ;;
    ret (Some (ch_number h))
  else read _channel_number.

(** ["{}".format(n)] of an integer. *)
Definition format_int (n : Z) : string :=
  NilZero.string_of_int (Z.to_int n).

(** [self.number or "Not initialized channel"], formatted: [None] and [0]
    are the falsy numbers. *)
Definition __str__ : M string :=
  n <- number ;;
  ret match n with
      | None => "Not initialized channel"
      | Some z => if (z =? 0)%Z then "Not initialized channel"
                  else format_int z
      end.

(** ** ChannelContext *)

Definition __aenter__ (o : OpenOutcome) : M ObjId :=
  i <- is_initialized ;;
  (if negb i then initialize None o else ret tt) ;;
  read self_id.

Definition __aexit__ (exc_type : option string) (exc_val : option Exn)
    (exc_tb : option ObjId) (o : CloseOutcome) : M unit :=
  close exc_val o.

Definition __await__ (o : OpenOutcome) : M ObjId :=
  initialize None o ;;
  read self_id.

(** ** Operations forwarded to the live handle *)

(** Modelled from the spec: the Queue class of queue.py, which is not among
    the sources: the settings the object was constructed with and the
    back-reference to its owning channel. *)
Record Queue : Type := {
  q_channel : ObjId;
  q_name : option string;
  q_durable : bool;
  q_exclusive : bool;
  q_auto_delete : bool;
  q_arguments : Arguments_t;
  q_passive : bool
}.

(** What is sent through a handle of the underlying channel. *)
Inductive Request : Type :=
| ReqBasicQos (handle : ObjId) (prefetch_count prefetch_size : Z)
              (global_ : bool) (timeout : TimeoutType)
| ReqQueueDelete (handle : ObjId) (queue : string)
                 (if_unused if_empty nowait : bool) (timeout : TimeoutType)
| ReqExchangeDelete (handle : ObjId) (exchange : string)
                    (if_unused nowait : bool) (timeout : TimeoutType)
| ReqFlow (handle : ObjId) (active : bool)
| ReqQueueDeclare (handle : ObjId) (q : Queue) (timeout : TimeoutType).

(** What the broker answers ([aiormq.spec]). *)
Inductive Reply : Type :=
| QosOk
| QueueDeleteOk (message_count : Z)
| ExchangeDeleteOk
| FlowOk (active : bool)
| QueueDeclareOk (queue : string) (message_count consumer_count : Z).

(** The channel and its trace, with the requests sent to the broker and the
    warnings issued, both in order. *)
Record Wire : Type := {
  world : World;
  sent : list Request;
  warnings : list string
}.

Definition W (A : Type) : Type := Wire -> Result A * Wire.

Definition bindW {A B} (m : W A) (k : A -> W B) : W B :=
  fun x =>
    match m x with
    | (Ok a, x1) => k a x1
    | (Raise e, x1) => (Raise e, x1)
    end.

Definition retW {A} (a : A) : W A := fun x => (Ok a, x).

Definition lift {A} (m : M A) : W A :=
  fun x =>
    match m (world x) with
    | (r, w1) => (r, {| world := w1; sent := sent x;
                        warnings := warnings x |})
    end.

(** [warn(msg, DeprecationWarning)] under the default warning filters. *)
Definition warn (msg : string) : W unit :=
  fun x => (Ok tt, {| world := world x; sent := sent x;
                      warnings := warnings x ++ [msg] |}).

(** [await self.channel.<operation>(...)]: the guarded accessor gives the
    handle, the request goes out through it, and [reply] is what comes
    back. *)
Definition request (q : ObjId -> Request) (reply : Result Reply)
  : W Reply :=
  bindW (lift channel)
        (fun h x => (reply, {| world := world x;
                               sent := sent x ++ [q (ch_id h)];
                               warnings := warnings x |})).

(** [Use "global_" instead of "all_channels"] *)
Definition msg_all_channels : string :=
  "Use " ++ dquote ++ "global_" ++ dquote ++ " instead of "
         ++ dquote ++ "all_channels" ++ dquote.

Definition set_qos (prefetch_count prefetch_size : Z) (global_ : bool)
    (timeout : TimeoutType) (all_channels : option bool)
    (reply : Result Reply) : W Reply :=
  bindW match all_channels with
        | Some a => bindW (warn msg_all_channels) (fun _ => retW a)
        | None => retW global_
        end
        (fun global_ =>
           request (fun h => ReqBasicQos h prefetch_count prefetch_size
                                         global_ timeout)
                   reply).

Definition queue_delete (queue_name : string) (timeout : TimeoutType)
    (if_unused if_empty nowait : bool) (reply : Result Reply) : W Reply :=
  request (fun h => ReqQueueDelete h queue_name if_unused if_empty nowait
                                   timeout)
          reply.

Definition exchange_delete (exchange_name : string) (timeout : TimeoutType)
    (if_unused nowait : bool) (reply : Result Reply) : W Reply :=
  request (fun h => ReqExchangeDelete h exchange_name if_unused nowait
                                      timeout)
          reply.

Definition flow (active : bool) (reply : Result Reply) : W Reply :=
  request (fun h => ReqFlow h active) reply.

(** Modelled from the spec: the constructor of the Queue class, which
    stores its arguments. *)
Definition QUEUE_CLASS (chan : ObjId) (name : option string)
    (durable exclusive auto_delete : bool) (arguments : Arguments_t)
    (passive : bool) : Queue :=
  {| q_channel := chan; q_name := name; q_durable := durable;
     q_exclusive := exclusive; q_auto_delete := auto_delete;
     q_arguments := arguments; q_passive := passive |}.

(** Modelled from the spec: [Queue.declare] (queue.py is not among the
    sources): the queue issues its declare operation through the guarded
    live-handle accessor of its owning channel. *)
Definition Queue_declare (q : Queue) (timeout : TimeoutType)
    (reply : Result Reply) : W unit :=
  bindW (request (fun h => ReqQueueDeclare h q timeout) reply)
        (fun _ => retW tt).

Definition declare_queue (name : option string)
    (durable exclusive passive auto_delete : bool)
    (arguments : Arguments_t) (timeout : TimeoutType)
    (reply : Result Reply) : W Queue :=
  bindW (lift (read self_id))
        (fun sid =>
           let queue :=
             QUEUE_CLASS sid name durable exclusive auto_delete arguments
                         passive in
           bindW (Queue_declare queue timeout reply)
                 (fun _ => retW queue)).

Definition get_queue (name : string) (ensure : bool)
    (reply : Result Reply) : W Queue :=
  if ensure then
    declare_queue (Some name) false false true false None None reply
  else
    bindW (lift (read self_id))
          (fun sid =>
             retW (QUEUE_CLASS sid (Some name) false false false None
                               true)).

Definition on_wire (w : World) : Wire :=
  {| world := w; sent := []; warnings := [] |}.

(** ** Reading a run *)

(** What no lifecycle call is meant to touch: the identity of the channel,
    its loop and connection, the configured number, both flags and both
    callback collections. *)
Definition settings (c : Channel)
  : ObjId * ObjId * Connection * option Z * bool * bool
    * CallbackCollection * CallbackCollection :=
  (self_id c, loop c, _connection c, _channel_number c,
   publisher_confirms c, _on_return_raises c,
   close_callbacks c, return_callbacks c).

Definition is_reopen (k : Call) : bool :=
  match k with
  | CReopen _ => true
  | _ => false
  end.

(** The answers the [initialize] calls of a run got. *)
Fixpoint initialize_results (ks : list Call) (rs : list (Result unit))
  : list (Result unit) :=
  match ks, rs with
  | CInitialize _ _ :: ks', r :: rs' => r :: initialize_results ks' rs'
  | _ :: ks', _ :: rs' => initialize_results ks' rs'
  | _, _ => []
  end.

Definition is_lifecycle_error (r : Result unit) : bool :=
  match r with
  | Raise (RuntimeError _) => true
  | _ => false
  end.

(** The [create_channel] requests of a trace, with what they ask for. *)
Fixpoint created (tr : list Event) : list (bool * bool * option Z) :=
  match tr with
  | [] => []
  | EvCreateChannel _ pc orr num :: tr' => (pc, orr, num) :: created tr'
  | _ :: tr' => created tr'
  end.

(** The channel after [_open] went through with handle [h]. *)
Definition opened_self (o : OpenOutcome) (h : AiormqChannel) (c : Channel)
  : Channel :=
  set_default_exchange
    (Some (EXCHANGE_CLASS (self_id c) "" (Some (inl DIRECT)) (Some false)
                          false false false None))
    (set_delivery_tag 0
       (set_channel (Some {| uc_channel := h |})
          (set_transport (Some (oo_transport o)) c))).

(** A handle that the peer has already closed. *)
Definition handle_closed0 : AiormqChannel :=
  {| ch_id := 11; ch_number := 2; ch_is_closed := true;
     ch_on_return_callbacks := [] |}.

Definition open_closed : OpenOutcome :=
  {| oo_wait := None; oo_transport := 3; oo_create := Ok handle_closed0 |}.

(** Creating the underlying channel fails. *)
Definition open_fails : OpenOutcome :=
  {| oo_wait := None; oo_transport := 3;
     oo_create := Raise (ExternalError "channel limit") |}.

(** Waiting for the connection is cancelled. *)
Definition open_cancelled : OpenOutcome :=
  {| oo_wait := Some CancelledError; oo_transport := 3;
     oo_create := Ok handle0 |}.

(** The default exchange [_open] makes for channel [c]. *)
Definition default_exchange_of (c : Channel) : Exchange :=
  EXCHANGE_CLASS (self_id c) "" (Some (inl DIRECT)) (Some false) false false
                 false None.

(** The default exchange is absent or the one [_open] makes, and it is
    there, with the transport, as soon as the latch is set or there is an
    underlying channel; the delivery tag is zero. *)
Definition opened_consistently (c : Channel) : Prop :=
  (default_exchange c = None
   \/ default_exchange c = Some (default_exchange_of c))
  /\ (ready c = true \/ _channel c <> None ->
      default_exchange c = Some (default_exchange_of c))
  /\ (_channel c <> None -> _transport c <> None)
  /\ _delivery_tag c = 0%Z.

(** * Properties *)

Ltac unfold_m :=
  unfold bind, ret, raise, read, update, emit, getattr, try_finally in *.

Example chan0_constructed :
  made (__init__ 0 conn0 None true false) = Ok chan0.
Proof. reflexivity. Qed.

Example opened0_ok : fst (initialize None open_ok (fresh chan0)) = Ok tt.
Proof. reflexivity. Qed.

Example opened0_ready : ready (self opened0) = true.
Proof. reflexivity. Qed.

(** ** Construction *)

(** C4: constructing a Channel with [on_return_raises] set and
    [publisher_confirms] unset fails with the configuration error before
    any attribute is assigned and before any action on a collaborator;
    every other combination of the two flags yields a Channel that holds
    the given settings, with the latch clear and the closed-by-user flag
    unset. *)
Theorem constructor_flags (s : ObjId) (conn : Connection) (num : option Z)
    (pc orr : bool) :
  __init__ s conn num false true =
    {| made := Raise (RuntimeError msg_on_return_raises);
       assigned := []; performed := [] |}
  /\ performed (__init__ s conn num pc orr) = []
  /\ match made (__init__ s conn num pc orr) with
     | Raise _ => pc = false /\ orr = true
     | Ok c =>
         (pc = true \/ orr = false)
         /\ self_id c = s /\ _connection c = conn
         /\ _channel_number c = num
         /\ publisher_confirms c = pc /\ _on_return_raises c = orr
         /\ ready c = false /\ _is_closed_by_user c = false
         /\ _channel c = None
     end.
Proof.
  split; [reflexivity|].
  destruct pc, orr; cbn; repeat split; auto.
Qed.

(** ** The closed predicate *)

Lemma is_closed_eq (w : World) :
  is_closed w =
    (if negb (ready (self w)) || _is_closed_by_user (self w) then Ok true
     else match _channel (self w) with
          | Some u => Ok (ch_is_closed (uc_channel u))
          | None => Raise (AttributeError "_channel")
          end, w).
Proof.
  unfold is_closed, is_initialized. unfold_m.
  destruct (negb (ready (self w)) || _is_closed_by_user (self w));
    [reflexivity|].
  destruct (_channel (self w)); reflexivity.
Qed.

(** C10: a Channel that was constructed and never initialized reports
    itself closed, and so does every Channel whose closed-by-user flag is
    set, whatever the underlying handle says and even when there is none. *)
Theorem is_closed_unopened_or_user_closed :
  (forall s conn num pc orr c,
      made (__init__ s conn num pc orr) = Ok c ->
      is_closed (fresh c) = (Ok true, fresh c))
  /\ (forall w,
         _is_closed_by_user (self w) = true -> is_closed w = (Ok true, w)).
Proof.
  split.
  - intros s conn num pc orr c H. rewrite is_closed_eq.
    destruct pc, orr; cbn in H; inversion H; subst; reflexivity.
  - intros w H. rewrite is_closed_eq, H, orb_true_r. reflexivity.
Qed.

Lemma is_closed_unopened_or_user_closed_witness :
  is_closed (fresh chan0) = (Ok true, fresh chan0)
  /\ option_map (fun u => ch_is_closed (uc_channel u))
                (_channel (self user_closed0)) = Some false
  /\ is_closed user_closed0 = (Ok true, user_closed0).
Proof.
  split; [|split].
  - apply (proj1 is_closed_unopened_or_user_closed 0 conn0 None true false).
    reflexivity.
  - reflexivity.
  - apply (proj2 is_closed_unopened_or_user_closed). reflexivity.
Defined.

(** ** Transactions *)

(** C7: [transaction] fails, with the configuration error, exactly when
    [publisher_confirms] is set at the time of the call; otherwise it
    returns a Transaction bound to this channel; in both cases the channel
    and the trace are left as they were. *)
Theorem transaction_iff_confirms (w : World) :
  snd (transaction w) = w
  /\ ((exists e, fst (transaction w) = Raise e)
      <-> publisher_confirms (self w) = true)
  /\ (fst (transaction w) = Raise (RuntimeError msg_transaction)
      <-> publisher_confirms (self w) = true)
  /\ (fst (transaction w) = Ok {| tx_channel := self_id (self w) |}
      <-> publisher_confirms (self w) = false).
Proof.
  unfold transaction. unfold_m.
  destruct (publisher_confirms (self w)); cbn; repeat split;
    intros; try reflexivity; try discriminate;
    match goal with
    | H : exists _, _ |- _ => destruct H; discriminate
    | |- exists _, _ => eexists; reflexivity
    | _ => idtac
    end.
Qed.

(** ** The guarded accessor *)

Lemma channel_eq (w : World) :
  channel w =
    (if negb (ready (self w)) then
       Raise (ChannelInvalidStateError msg_not_opened)
     else if _is_closed_by_user (self w) then
       Raise (ChannelInvalidStateError msg_closed)
     else match _channel (self w) with
          | None => Raise (AttributeError "_channel")
          | Some u =>
              if ch_is_closed (uc_channel u)
              then Raise (ChannelInvalidStateError msg_closed)
              else Ok (uc_channel u)
          end, w).
Proof.
  unfold channel, is_initialized.
  unfold bind at 1. unfold read at 1.
  destruct (ready (self w)) eqn:Hr; cbn [negb]; [|reflexivity].
  unfold bind at 1. rewrite is_closed_eq, Hr. cbn [negb orb].
  destruct (_is_closed_by_user (self w)); [reflexivity|].
  unfold_m. destruct (_channel (self w)) as [u|] eqn:Hc; [|reflexivity].
  destruct (ch_is_closed (uc_channel u)); [reflexivity|].
  cbv beta. rewrite Hc. reflexivity.
Qed.

(** ** Exchanges *)

(** C6: [get_exchange name] with [ensure] set is [declare_exchange name]
    with [passive] set and every other argument at its default: the same
    result or failure, the same channel, the same trace.  On a live handle
    it fails with what the broker answers when the exchange does not exist
    and otherwise returns the passive Exchange of that name bound to this
    channel; without a live handle it fails as the accessor does.  With
    [ensure] unset it returns the local Exchange object and leaves the
    channel and the trace untouched: nothing is sent. *)
Theorem get_exchange_ensure (name : string) (reply : option Exn)
    (w : World) :
  get_exchange name true reply w
  = declare_exchange name (inl DIRECT) (Some false) false false true None
                     None reply w
  /\ fst (get_exchange name true reply w)
     = match fst (channel w), reply with
       | Raise e, _ => Raise e
       | Ok _, Some e => Raise e
       | Ok _, None =>
           Ok (EXCHANGE_CLASS (self_id (self w)) name (Some (inl DIRECT))
                              (Some false) false false true None)
       end
  /\ get_exchange name false reply w
     = (Ok (EXCHANGE_CLASS (self_id (self w)) name None (Some false) false
                           false true None), w).
Proof.
  split; [reflexivity|]. split; [|reflexivity].
  unfold get_exchange, declare_exchange, Exchange_declare. cbn [andb].
  unfold bind at 1. unfold read at 1.
  unfold bind at 1. unfold bind at 1.
  rewrite channel_eq. cbn [fst].
  destruct (negb (ready (self w))); [reflexivity|].
  destruct (_is_closed_by_user (self w)); [reflexivity|].
  destruct (_channel (self w)) as [u|]; [|reflexivity].
  destruct (ch_is_closed (uc_channel u)); [reflexivity|].
  destruct reply; reflexivity.
Qed.

(** ** The close notification *)

Lemma CallbackCollection_call_cons (sender : ObjId) (h : Handler)
    (hs : CallbackCollection) (arg : option Exn) (w : World) :
  CallbackCollection_call sender (h :: hs) arg w
  = CallbackCollection_call sender hs arg
      {| self := self w;
         trace := trace w
                  ++ EvCallback (h_id h) sender arg (ready (self w))
                     :: match h_raises h with
                        | Some _ => [EvLog ERROR "Callback error"]
                        | None => []
                        end |}.
Proof.
  cbn [CallbackCollection_call]. unfold_m.
  destruct (h_raises h); cbv beta iota; cbn [self trace];
    rewrite <- ?app_assoc; reflexivity.
Qed.

Lemma CallbackCollection_call_spec (sender : ObjId)
    (hs : CallbackCollection) (arg : option Exn) (w : World) :
  exists evs,
    CallbackCollection_call sender hs arg w
    = (Ok tt, {| self := self w; trace := trace w ++ evs |})
    /\ filter is_callback evs
       = map (fun h => EvCallback (h_id h) sender arg (ready (self w))) hs
    /\ existsb is_latch_change evs = false.
Proof.
  revert w. induction hs as [|h hs IH]; intros w.
  - exists []. cbn. rewrite app_nil_r. destruct w; auto.
  - rewrite CallbackCollection_call_cons.
    match goal with
    | |- context [CallbackCollection_call _ _ _ ?w1] =>
        destruct (IH w1) as (evs & Hrun & Hcb & Hlatch)
    end.
    cbn [self trace] in Hrun, Hcb.
    exists ((EvCallback (h_id h) sender arg (ready (self w))
             :: match h_raises h with
                | Some _ => [EvLog ERROR "Callback error"]
                | None => []
                end) ++ evs)%list.
    rewrite Hrun. repeat split.
    + do 2 f_equal. rewrite <- app_assoc. reflexivity.
    + destruct (h_raises h); cbn; rewrite Hcb; reflexivity.
    + destruct (h_raises h); cbn; exact Hlatch.
Qed.

(** C8, as the code has it: on a close event whose closing future is done
    with a reason (or none), the notification handler calls every
    registered close callback once, in order, with that reason, each of
    them finding the latch as it was before the event, and the clearing of
    the latch is the last thing it does, after all of them, also when
    callbacks fail.  When the closing future was cancelled, reading its
    exception raises: the handler calls no callback, clears the latch and
    raises [CancelledError].  Whatever the closing future holds, the latch
    is clear when the handler is done. *)
Theorem on_close_notifies_then_clears (reason : option Exn) (w : World) :
  (exists evs,
      __on_close (FutDone reason) w
      = (Ok tt, {| self := set_ready false (self w);
                   trace := trace w ++ evs ++ [EvReadyClear] |})
      /\ filter is_callback evs
         = map (fun h => EvCallback (h_id h) (self_id (self w)) reason
                                    (ready (self w)))
               (close_callbacks (self w))
      /\ existsb is_latch_change evs = false)
  /\ __on_close FutCancelled w
     = (Raise CancelledError,
        {| self := set_ready false (self w);
           trace := trace w ++ [EvReadyClear] |})
  /\ (forall closing, ready (self (snd (__on_close closing w))) = false).
Proof.
  split; [|split].
  - destruct (CallbackCollection_call_spec
                (self_id (self w)) (close_callbacks (self w)) reason w)
      as (evs & Hrun & Hcb & Hlatch).
    exists evs. repeat split; auto.
    unfold __on_close, ready_clear, Future_exception. unfold_m.
    rewrite Hrun. cbn. rewrite <- app_assoc. reflexivity.
  - reflexivity.
  - intros closing. unfold __on_close, ready_clear. unfold_m.
    destruct closing as [reason'|]; cbn.
    + destruct (CallbackCollection_call_spec
                  (self_id (self w)) (close_callbacks (self w)) reason' w)
        as (evs & Hrun & _).
      unfold_m. rewrite Hrun. reflexivity.
    + reflexivity.
Qed.

(** C8, as stated, fails: when the closing future of the close event was
    cancelled, the handler calls none of the registered close callbacks,
    and yet it clears the latch; it raises [CancelledError]. *)
Lemma on_close_cancelled_skips_callbacks :
  close_callbacks (self subscribed0) = [handler0]
  /\ ready (self subscribed0) = true
  /\ fst (__on_close FutCancelled subscribed0) = Raise CancelledError
  /\ filter is_callback (trace (snd (__on_close FutCancelled subscribed0)))
     = []
  /\ ready (self (snd (__on_close FutCancelled subscribed0))) = false
  /\ filter is_callback
        (trace (snd (__on_close (FutDone None) subscribed0)))
     = [EvCallback 20 0 None true].
Proof. repeat split. Qed.

(** ** Reopening *)

(** C9: a reopen that succeeds has made the underlying channel reference
    the handle just created and the default exchange a new nameless direct
    exchange of this channel, has cleared the closed-by-user flag and set
    the ready latch, and has left the close and return callbacks, both
    flags and the channel number as they were. *)
Theorem reopen_success (o : OpenOutcome) (w : World)
    (Hok : fst (reopen o w) = Ok tt) :
  (exists h,
      oo_create o = Ok h
      /\ _channel (self (snd (reopen o w))) = Some {| uc_channel := h |})
  /\ default_exchange (self (snd (reopen o w)))
     = Some (EXCHANGE_CLASS (self_id (self w)) "" (Some (inl DIRECT))
                            (Some false) false false false None)
  /\ _is_closed_by_user (self (snd (reopen o w))) = false
  /\ ready (self (snd (reopen o w))) = true
  /\ close_callbacks (self (snd (reopen o w))) = close_callbacks (self w)
  /\ return_callbacks (self (snd (reopen o w))) = return_callbacks (self w)
  /\ publisher_confirms (self (snd (reopen o w)))
     = publisher_confirms (self w)
  /\ _on_return_raises (self (snd (reopen o w)))
     = _on_return_raises (self w)
  /\ _channel_number (self (snd (reopen o w))) = _channel_number (self w).
Proof.
  revert Hok. unfold reopen, _open, ready_set. unfold_m.
  destruct o as [wt tr [h|e]]; destruct wt; cbn; intros Hok;
    try discriminate.
  repeat split. exists h. split; reflexivity.
Qed.

Lemma reopen_success_witness :
  (exists h,
      oo_create open_ok = Ok h
      /\ _channel (self (snd (reopen open_ok peer_closed0)))
         = Some {| uc_channel := h |})
  /\ _is_closed_by_user (self (snd (reopen open_ok user_closed0))) = false
  /\ ready (self (snd (reopen open_ok peer_closed0))) = true.
Proof.
  split; [|split].
  - apply (reopen_success open_ok peer_closed0). reflexivity.
  - apply (reopen_success open_ok user_closed0). reflexivity.
  - apply (reopen_success open_ok peer_closed0). reflexivity.
Defined.

(** ** close *)

Lemma set_is_closed_by_user_same (c : Channel) :
  _is_closed_by_user c = true -> set_is_closed_by_user true c = c.
Proof. destruct c; cbn; intros ->; reflexivity. Qed.

Lemma on_close_self (closing : Future) (w : World) :
  self (snd (__on_close closing w)) = set_ready false (self w).
Proof.
  unfold __on_close, ready_clear. unfold_m.
  destruct closing as [reason|]; cbn; [|reflexivity].
  destruct (CallbackCollection_call_spec
              (self_id (self w)) (close_callbacks (self w)) reason w)
    as (evs & Hrun & _).
  unfold_m. rewrite Hrun. reflexivity.
Qed.

Lemma close_event_self (closing : Future) (w : World) :
  self (snd (close_event closing w))
  = set_ready false
      (set_channel (option_map mark_closed (_channel (self w))) (self w)).
Proof.
  unfold close_event. unfold_m. cbn [snd]. rewrite on_close_self.
  reflexivity.
Qed.

(** The channel a [close] leaves behind. *)
Lemma close_self (e : option Exn) (o : CloseOutcome) (w : World) :
  self (snd (close e o w))
  = if ready (self w) then
      set_is_closed_by_user true
        match _channel (self w), co_closing o with
        | Some u, Some _ =>
            set_ready false (set_channel (Some (mark_closed u)) (self w))
        | _, _ => self w
        end
    else self w.
Proof.
  unfold close, is_initialized, UnderlayChannel_close.
  unfold bind at 1. unfold read at 1.
  destruct (ready (self w)); cbn [negb]; [|reflexivity].
  unfold bind at 1. unfold emit at 1. unfold try_finally.
  unfold bind at 1. unfold getattr. cbn [self trace].
  destruct (_channel (self w)) as [u|] eqn:Hu; [|reflexivity].
  unfold bind at 1. unfold bind at 1. unfold emit at 1.
  destruct (co_closing o) as [f|].
  - match goal with
    | |- context [close_event f ?w1] =>
        pose proof (close_event_self f w1) as Hev;
        destruct (close_event f w1) as [r w2] eqn:Hrun
    end.
    cbn [snd self] in Hev. rewrite Hu in Hev. cbn [option_map] in Hev.
    assert (r = Ok tt) as ->.
    { unfold close_event in Hrun. unfold_m. cbn in Hrun.
      inversion Hrun; reflexivity. }
    unfold_m. destruct (co_raises o); cbn; rewrite Hev; reflexivity.
  - unfold_m. destruct (co_raises o); reflexivity.
Qed.

(** What a [close] answers. *)
Lemma close_result (e : option Exn) (o : CloseOutcome) (w : World) :
  fst (close e o w)
  = if ready (self w) then
      match _channel (self w), co_raises o with
      | None, _ => Raise (AttributeError "_channel")
      | Some _, Some x => Raise x
      | Some _, None => Ok tt
      end
    else Ok tt.
Proof.
  unfold close, is_initialized, UnderlayChannel_close.
  unfold bind at 1. unfold read at 1.
  destruct (ready (self w)); cbn [negb]; [|reflexivity].
  unfold bind at 1. unfold emit at 1. unfold try_finally.
  unfold bind at 1. unfold getattr. cbn [self trace].
  destruct (_channel (self w)) as [u|] eqn:Hu; [|reflexivity].
  unfold bind at 1. unfold bind at 1. unfold emit at 1.
  destruct (co_closing o) as [f|].
  - match goal with
    | |- context [close_event f ?w1] =>
        destruct (close_event f w1) as [r w2] eqn:Hrun
    end.
    assert (r = Ok tt) as ->.
    { unfold close_event in Hrun. unfold_m. cbn in Hrun.
      inversion Hrun; reflexivity. }
    unfold_m. destruct (co_raises o); reflexivity.
  - unfold_m. destruct (co_raises o); reflexivity.
Qed.

Lemma close_keeps_flag (e : option Exn) (o : CloseOutcome) (w : World) :
  _is_closed_by_user (self w) = true ->
  _is_closed_by_user (self (snd (close e o w))) = true.
Proof.
  intros H. rewrite close_self. destruct (ready (self w)); auto.
Qed.

Lemma perform_snd_cons (k : Call) (ks : list Call) (w : World) :
  snd (perform (k :: ks) w) = snd (perform ks (snd (call k w))).
Proof.
  cbn [perform]. destruct (call k w) as [r w1]. cbn [snd].
  destruct (perform ks w1); reflexivity.
Qed.

Lemma closes_keep_flag (rest : list (option Exn * CloseOutcome)) :
  forall w,
    _is_closed_by_user (self w) = true ->
    _is_closed_by_user (self (snd (perform (closes rest) w))) = true.
Proof.
  induction rest as [|[e o] rest IH]; intros w H; [exact H|].
  cbn [closes map]. rewrite perform_snd_cons. apply IH.
  cbn [call fst snd]. apply close_keeps_flag, H.
Qed.

Lemma closes_unready (rest : list (option Exn * CloseOutcome)) :
  forall w,
    ready (self w) = false ->
    self (snd (perform (closes rest) w)) = self w.
Proof.
  induction rest as [|[e o] rest IH]; intros w H; [reflexivity|].
  cbn [closes map]. rewrite perform_snd_cons. cbn [call fst snd].
  assert (self (snd (close e o w)) = self w) as Hs.
  { rewrite close_self, H. reflexivity. }
  rewrite IH; [exact Hs|]. rewrite Hs. exact H.
Qed.

Lemma closes_quiet (rest : list (option Exn * CloseOutcome)) :
  forall w,
    _is_closed_by_user (self w) = true ->
    Forall (fun eo => co_closing (snd eo) = None) rest ->
    self (snd (perform (closes rest) w)) = self w.
Proof.
  induction rest as [|[e o] rest IH]; intros w H Hq; [reflexivity|].
  inversion Hq as [|? ? Ho Hrest]; subst. cbn [snd] in Ho.
  cbn [closes map]. rewrite perform_snd_cons. cbn [call fst snd].
  assert (self (snd (close e o w)) = self w) as Hs.
  { rewrite close_self, Ho. destruct (ready (self w)); [|reflexivity].
    destruct (_channel (self w));
      apply set_is_closed_by_user_same, H. }
  rewrite IH; [exact Hs| |exact Hrest]. rewrite Hs. exact H.
Qed.

(** C1, as the code has it: on a Channel whose ready latch is set, [close]
    leaves the closed-by-user flag set whatever the underlying close does,
    and so does any number of further calls; the further calls leave the
    channel as the first call left it, when the first call already saw the
    latch cleared or no close notification arrives during the later ones;
    and [close] does raise: it answers with the exception of the underlying
    close when that one fails (or with the attribute error when there is no
    underlying channel), after the flag is set.  On a channel whose latch
    is clear [close] is a logged no-op: it returns, leaves the channel as
    it is and only logs the warning. *)
Theorem close_repeated (e : option Exn) (o : CloseOutcome)
    (rest : list (option Exn * CloseOutcome)) (w : World)
    (Hinit : ready (self w) = true) :
  _is_closed_by_user (self (snd (close e o w))) = true
  /\ _is_closed_by_user (self (snd (perform (closes ((e, o) :: rest)) w)))
     = true
  /\ (ready (self (snd (close e o w))) = false
      \/ Forall (fun eo => co_closing (snd eo) = None) rest ->
      self (snd (perform (closes ((e, o) :: rest)) w))
      = self (snd (close e o w)))
  /\ fst (close e o w)
     = match _channel (self w), co_raises o with
       | None, _ => Raise (AttributeError "_channel")
       | Some _, Some x => Raise x
       | Some _, None => Ok tt
       end
  /\ (forall e' o' w',
         ready (self w') = false ->
         close e' o' w'
         = (Ok tt,
            {| self := self w';
               trace := trace w'
                        ++ [EvLog WARNING "Channel not opened"] |})).
Proof.
  assert (_is_closed_by_user (self (snd (close e o w))) = true) as Hflag.
  { rewrite close_self, Hinit.
    destruct (_channel (self w)), (co_closing o); reflexivity. }
  cbn [closes map]. rewrite perform_snd_cons. cbn [call fst snd].
  split; [exact Hflag|].
  split; [apply closes_keep_flag, Hflag|].
  split.
  { intros [Hclear|Hquiet].
    - apply closes_unready, Hclear.
    - apply closes_quiet; assumption. }
  split; [rewrite close_result, Hinit; reflexivity|].
  intros e' o' w' Hclear.
  unfold close, is_initialized. unfold_m. rewrite Hclear. reflexivity.
Qed.

Lemma close_repeated_witness :
  ready (self opened0) = true
  /\ _is_closed_by_user
       (self (snd (perform
                     (closes [(None, close_fails); (None, close_clean);
                              (None, close_fails)])
                     opened0)))
     = true
  /\ self (snd (perform
                  (closes [(None, close_fails); (None, close_fails);
                           (None, close_fails)])
                  opened0))
     = self (snd (close None close_fails opened0))
  /\ self (snd (perform
                  (closes [(None, close_clean); (None, close_clean)])
                  opened0))
     = self (snd (close None close_clean opened0))
  /\ close None close_clean peer_closed0
     = (Ok tt,
        {| self := self peer_closed0;
           trace := trace peer_closed0
                    ++ [EvLog WARNING "Channel not opened"] |}).
Proof.
  split; [reflexivity|]. split; [|split; [|split]].
  - exact (proj1 (proj2 (close_repeated None close_fails
                           [(None, close_clean); (None, close_fails)]
                           opened0 eq_refl))).
  - apply (proj1 (proj2 (proj2 (close_repeated None close_fails
                                  [(None, close_fails); (None, close_fails)]
                                  opened0 eq_refl)))).
    right. repeat constructor.
  - apply (proj1 (proj2 (proj2 (close_repeated None close_clean
                                  [(None, close_clean)] opened0 eq_refl)))).
    left. reflexivity.
  - apply (proj2 (proj2 (proj2 (proj2 (close_repeated None close_clean []
                                         opened0 eq_refl))))).
    reflexivity.
Defined.

(** C1, as stated, fails.  [close] on an initialized channel raises to its
    caller when the underlying close fails (the flag is set all the same);
    a second [close], during which the channel does get closed, leaves a
    state other than the one the first call left; and on a channel that was
    initialized and then closed by the peer, [close] returns without
    setting the flag. *)
Lemma close_raises_when_underlying_close_fails :
  ready (self opened0) = true
  /\ fst (close None close_fails opened0)
     = Raise (ExternalError "connection lost")
  /\ _is_closed_by_user (self (snd (close None close_fails opened0)))
     = true
  /\ ready (self (snd (close None close_fails opened0))) = true
  /\ ready (self (snd (perform
                         (closes [(None, close_fails); (None, close_clean)])
                         opened0)))
     = false
  /\ fst (close None close_clean peer_closed0) = Ok tt
  /\ _is_closed_by_user (self (snd (close None close_clean peer_closed0)))
     = false.
Proof. repeat split. Qed.

(** ** initialize *)

Lemma initialize_rejects (t : TimeoutType) (o : OpenOutcome) (w : World) :
  ready (self w) = true \/ _is_closed_by_user (self w) = true ->
  initialize t o w
  = (Raise (RuntimeError (if ready (self w) then "Already initialized"
                          else "Can't initialize closed channel")), w).
Proof.
  intros H. unfold initialize, is_initialized. unfold_m.
  destruct (ready (self w)); [reflexivity|].
  destruct H as [H|H]; [discriminate|]. rewrite H. reflexivity.
Qed.

Lemma on_initialized_ready (w : World) :
  ready (self (snd (_on_initialized w))) = ready (self w).
Proof.
  unfold _on_initialized. unfold bind at 1. rewrite channel_eq.
  destruct (negb (ready (self w))); [reflexivity|].
  destruct (_is_closed_by_user (self w)); [reflexivity|].
  destruct (_channel (self w)) as [u|]; [|reflexivity].
  destruct (ch_is_closed (uc_channel u)); reflexivity.
Qed.

Lemma initialize_eq (t : TimeoutType) (o : OpenOutcome) (w : World) :
  initialize t o w
  = if ready (self w) then (Raise (RuntimeError "Already initialized"), w)
    else if _is_closed_by_user (self w) then
      (Raise (RuntimeError "Can't initialize closed channel"), w)
    else
      match _open o w with
      | (Ok _, w1) =>
          _on_initialized {| self := set_ready true (self w1);
                             trace := trace w1 ++ [EvReadySet] |}
      | (Raise x, w1) => (Raise x, w1)
      end.
Proof.
  unfold initialize, is_initialized, ready_set. unfold_m.
  destruct (ready (self w)); [reflexivity|].
  destruct (_is_closed_by_user (self w)); [reflexivity|].
  destruct (_open o w) as [[[]|x] w1]; reflexivity.
Qed.

Lemma initialize_ok_ready (t : TimeoutType) (o : OpenOutcome) (w : World) :
  fst (initialize t o w) = Ok tt ->
  ready (self (snd (initialize t o w))) = true.
Proof.
  rewrite initialize_eq.
  destruct (ready (self w)); [discriminate|].
  destruct (_is_closed_by_user (self w)); [discriminate|].
  destruct (_open o w) as [[[]|x] w1]; [|discriminate].
  intros _. rewrite on_initialized_ready. reflexivity.
Qed.

Lemma reopen_ok_ready (o : OpenOutcome) (w : World) :
  fst (reopen o w) = Ok tt -> ready (self (snd (reopen o w))) = true.
Proof.
  unfold reopen, _open, ready_set. unfold_m.
  destruct o as [wt tr [h|x]]; destruct wt; cbn; intros Hok;
    try discriminate; reflexivity.
Qed.

(** C3, as the code has it: [initialize] on a Channel whose ready latch is
    set or whose closed-by-user flag is set fails with a lifecycle error
    and leaves the channel and the trace as they were.  The error is
    "Already initialized" whenever the latch is set, also on a channel the
    user has closed, and "Can't initialize closed channel" when the flag is
    set and the latch is clear.  In particular a second [initialize] right
    after a successful one fails with "Already initialized" and changes
    nothing. *)
Theorem initialize_rejected (t : TimeoutType) (o : OpenOutcome) (w : World)
    (H : ready (self w) = true \/ _is_closed_by_user (self w) = true) :
  initialize t o w
  = (Raise (RuntimeError (if ready (self w) then "Already initialized"
                          else "Can't initialize closed channel")), w)
  /\ (forall t0 o0 w0,
         fst (initialize t0 o0 w0) = Ok tt ->
         initialize t o (snd (initialize t0 o0 w0))
         = (Raise (RuntimeError "Already initialized"),
            snd (initialize t0 o0 w0))).
Proof.
  split; [apply initialize_rejects, H|].
  intros t0 o0 w0 Hok. rewrite initialize_rejects.
  - rewrite (initialize_ok_ready _ _ _ Hok). reflexivity.
  - left. apply initialize_ok_ready, Hok.
Qed.

Lemma initialize_rejected_witness :
  (ready (self opened0) = true
   \/ _is_closed_by_user (self opened0) = true)
  /\ initialize None open_ok opened0
     = (Raise (RuntimeError "Already initialized"), opened0)
  /\ initialize None open_ok
       (snd (close None close_clean opened0))
     = (Raise (RuntimeError "Can't initialize closed channel"),
        snd (close None close_clean opened0)).
Proof.
  split; [left; reflexivity|]. split.
  - exact (proj1 (initialize_rejected None open_ok opened0
                    (or_introl eq_refl))).
  - exact (proj1 (initialize_rejected None open_ok
                    (snd (close None close_clean opened0))
                    (or_intror eq_refl))).
Defined.

(** C3, as stated, fails: a channel the user closed and never reopened,
    whose underlying close failed before any close notification, answers
    [initialize] with "Already initialized", not with the closed-channel
    error. *)
Lemma initialize_after_failed_close :
  _is_closed_by_user (self user_closed0) = true
  /\ initialize None open_ok user_closed0
     = (Raise (RuntimeError "Already initialized"), user_closed0)
  /\ fst (initialize None open_ok user_closed0)
     <> Raise (RuntimeError "Can't initialize closed channel").
Proof. repeat split. cbv. discriminate. Qed.

(** ** The ready latch *)

(** C2, as the code has it: the latch is set after a successful
    [initialize] and after a successful [reopen]; it is clear after every
    run of the close notification handler, so after every close event of
    the transport, peer-initiated or delivered while [close] awaits the
    underlying close; [close] itself never clears it: after [close] the
    latch is clear when such a notification was delivered during the call
    (or the latch was clear before), and is as it was otherwise.  What
    [close] itself sets is the closed-by-user flag, and only on a channel
    whose latch is set: after [close] the flag is set when the latch was
    set at the call, and is as it was otherwise. *)
Theorem ready_latch_lifecycle (t : TimeoutType) (o1 o2 : OpenOutcome)
    (w1 w2 : World)
    (Hinit : fst (initialize t o1 w1) = Ok tt)
    (Hreopen : fst (reopen o2 w2) = Ok tt) :
  ready (self (snd (initialize t o1 w1))) = true
  /\ ready (self (snd (reopen o2 w2))) = true
  /\ (forall closing w, ready (self (snd (__on_close closing w))) = false)
  /\ (forall closing w, ready (self (snd (close_event closing w))) = false)
  /\ (forall e o w,
         ready (self (snd (close e o w)))
         = match _channel (self w), co_closing o with
           | Some _, Some _ => false
           | _, _ => ready (self w)
           end)
  /\ (forall e o w,
         _is_closed_by_user (self (snd (close e o w)))
         = if ready (self w) then true else _is_closed_by_user (self w)).
Proof.
  split; [apply initialize_ok_ready, Hinit|].
  split; [apply reopen_ok_ready, Hreopen|].
  split; [intros; rewrite on_close_self; reflexivity|].
  split; [intros; rewrite close_event_self; reflexivity|].
  split.
  - intros e o w. rewrite close_self.
    destruct (ready (self w)) eqn:Hr.
    + destruct (_channel (self w)), (co_closing o); cbn; auto.
    + rewrite Hr. destruct (_channel (self w)), (co_closing o); reflexivity.
  - intros e o w. rewrite close_self.
    destruct (ready (self w)); [|reflexivity].
    destruct (_channel (self w)), (co_closing o); reflexivity.
Qed.

Lemma ready_latch_lifecycle_witness :
  fst (initialize None open_ok (fresh chan0)) = Ok tt
  /\ fst (reopen open_ok peer_closed0) = Ok tt
  /\ ready (self (snd (initialize None open_ok (fresh chan0)))) = true
  /\ ready (self (snd (reopen open_ok peer_closed0))) = true
  /\ ready (self peer_closed0) = false
  /\ ready (self (snd (close None close_clean opened0))) = false
  /\ ready (self (snd (close None close_fails opened0))) = true
  /\ _is_closed_by_user (self (snd (close None close_fails opened0)))
     = true
  /\ _is_closed_by_user (self (snd (close None close_fails (fresh chan0))))
     = false.
Proof.
  split; [reflexivity|]. split; [reflexivity|].
  pose proof (ready_latch_lifecycle None open_ok open_ok (fresh chan0)
                peer_closed0 eq_refl eq_refl)
    as (Hi & Hr & _ & Hp & Hc & Hf).
  split; [exact Hi|]. split; [exact Hr|].
  split; [apply Hp|]. split; [rewrite Hc; reflexivity|].
  split; [rewrite Hc; reflexivity|].
  split; rewrite Hf; reflexivity.
Defined.

(** C2, as stated, fails: a [close] whose underlying close fails before any
    close notification completes with the latch still set. *)
Lemma latch_set_after_failed_close :
  fst (initialize None open_ok (fresh chan0)) = Ok tt
  /\ fst (close None close_fails opened0)
     = Raise (ExternalError "connection lost")
  /\ _is_closed_by_user (self user_closed0) = true
  /\ ready (self user_closed0) = true.
Proof. repeat split. Qed.

(** ** The guarded accessor, case by case *)

Lemma close_unready (e : option Exn) (o : CloseOutcome) (w : World) :
  ready (self w) = false ->
  ready (self (snd (close e o w))) = false.
Proof.
  intros H. unfold close, is_initialized. unfold_m. rewrite H. exact H.
Qed.

(** A run without any [initialize] or [reopen] leaves the latch clear. *)
Lemma perform_unopened (ks : list Call) :
  forall w,
    existsb opens ks = false ->
    ready (self w) = false ->
    ready (self (snd (perform ks w))) = false.
Proof.
  induction ks as [|k ks IH]; intros w Hks Hw; [exact Hw|].
  cbn [existsb] in Hks. apply orb_false_iff in Hks as [Hk Hks].
  rewrite perform_snd_cons. apply IH; [exact Hks|].
  destruct k as [t o|e o|o|f]; try discriminate; cbn [call].
  - apply close_unready, Hw.
  - rewrite close_event_self. reflexivity.
Qed.

(** C5, as the code has it: the accessor never changes the channel; it
    fails with the not-opened reason exactly when the ready latch is clear
    (a channel never initialized, and equally one whose latch a close
    notification has cleared); it fails with the distinct closed reason
    exactly when the latch is set and [is_closed] answers true; and it
    returns the live handle exactly when the latch is set and [is_closed]
    answers false.  A constructed channel on which neither [initialize] nor
    [reopen] was ever called has its latch clear, whatever closes it has
    seen. *)
Theorem channel_accessor_cases (w : World) :
  snd (channel w) = w
  /\ msg_not_opened <> msg_closed
  /\ (fst (channel w) = Raise (ChannelInvalidStateError msg_not_opened)
      <-> ready (self w) = false)
  /\ (fst (channel w) = Raise (ChannelInvalidStateError msg_closed)
      <-> ready (self w) = true /\ fst (is_closed w) = Ok true)
  /\ (forall h,
         fst (channel w) = Ok h
         <-> ready (self w) = true /\ fst (is_closed w) = Ok false
             /\ _channel (self w) = Some {| uc_channel := h |})
  /\ (forall s conn num pc orr c ks,
         made (__init__ s conn num pc orr) = Ok c ->
         existsb opens ks = false ->
         fst (channel (snd (perform ks (fresh c))))
         = Raise (ChannelInvalidStateError msg_not_opened)).
Proof.
  rewrite channel_eq, is_closed_eq. cbn [fst snd].
  split; [reflexivity|]. split; [discriminate|].
  assert (forall s conn num pc orr c ks,
             made (__init__ s conn num pc orr) = Ok c ->
             existsb opens ks = false ->
             fst (channel (snd (perform ks (fresh c))))
             = Raise (ChannelInvalidStateError msg_not_opened)) as Hnever.
  { intros s conn num pc orr c ks Hc Hks. rewrite channel_eq. cbn [fst].
    rewrite perform_unopened; [reflexivity|exact Hks|].
    destruct pc, orr; cbn in Hc; inversion Hc; subst; reflexivity. }
  destruct (ready (self w)); cbn [negb orb].
  - destruct (_is_closed_by_user (self w)).
    + repeat split; intros; try discriminate; try tauto;
        try (destruct H as (_ & H & _); discriminate); eauto.
    + destruct (_channel (self w)) as [[h']|]; cbn [uc_channel].
      * destruct (ch_is_closed h'); repeat split; intros;
          try discriminate; try tauto;
          try (destruct H as (_ & H); discriminate);
          try (destruct H as (_ & H & _); discriminate);
          try (destruct H as (_ & _ & H); congruence);
          try congruence; eauto.
      * repeat split; intros; try discriminate; try tauto;
          try (destruct H as (_ & H); discriminate);
          try (destruct H as (_ & H & _); discriminate); eauto.
  - repeat split; intros; try discriminate; try tauto;
      try (destruct H as (H & _); discriminate); eauto.
Qed.

Lemma channel_accessor_cases_witness :
  fst (channel (snd (perform [CClose None close_clean;
                              CPeerClose (FutDone None)]
                             (fresh chan0))))
  = Raise (ChannelInvalidStateError msg_not_opened)
  /\ fst (channel user_closed0)
     = Raise (ChannelInvalidStateError msg_closed)
  /\ fst (channel opened0) = Ok (add_return_bridge0 handle0).
Proof.
  split; [|split].
  - apply (proj2 (proj2 (proj2 (proj2 (proj2
             (channel_accessor_cases (fresh chan0))))))
             0 conn0 None true false chan0); reflexivity.
  - apply (proj1 (proj2 (proj2 (proj2
             (channel_accessor_cases user_closed0))))).
    split; reflexivity.
  - apply (proj1 (proj2 (proj2 (proj2 (proj2
             (channel_accessor_cases opened0)))))).
    repeat split.
Defined.

(** C5, as stated, fails: after a peer-initiated close of an initialized
    channel the channel is closed, yet the accessor fails with the
    not-opened reason, the same it gives for a channel never initialized;
    and so it does after a [close] by the user during which the close
    notification was delivered. *)
Lemma channel_accessor_after_peer_close :
  fst (initialize None open_ok (fresh chan0)) = Ok tt
  /\ fst (is_closed peer_closed0) = Ok true
  /\ fst (channel peer_closed0)
     = Raise (ChannelInvalidStateError msg_not_opened)
  /\ fst (channel peer_closed0) = fst (channel (fresh chan0))
  /\ fst (channel peer_closed0)
     <> Raise (ChannelInvalidStateError msg_closed)
  /\ fst (close None close_clean opened0) = Ok tt
  /\ fst (channel (snd (close None close_clean opened0)))
     = Raise (ChannelInvalidStateError msg_not_opened).
Proof.
  repeat split; try reflexivity. cbv. discriminate.
Qed.

(** * Further properties *)

(** ** Opening, step by step *)

Lemma open_eq (o : OpenOutcome) (w : World) :
  _open o w
  = match oo_wait o with
    | Some e =>
        (Raise e,
         {| self := self w;
            trace := trace w
                     ++ [EvConnectedWait (conn_id (_connection (self w)))] |})
    | None =>
        match oo_create o with
        | Raise e =>
            (Raise e,
             {| self := set_transport (Some (oo_transport o)) (self w);
                trace := trace w
                         ++ [EvConnectedWait (conn_id (_connection (self w)));
                             EvCreateChannel (oo_transport o)
                               (publisher_confirms (self w))
                               (_on_return_raises (self w))
                               (_channel_number (self w))] |})
        | Ok h =>
            (Ok tt,
             {| self := opened_self o h (self w);
                trace := trace w
                         ++ [EvConnectedWait (conn_id (_connection (self w)));
                             EvCreateChannel (oo_transport o)
                               (publisher_confirms (self w))
                               (_on_return_raises (self w))
                               (_channel_number (self w))] |})
        end
    end.
Proof.
  unfold _open. unfold_m.
  destruct (oo_wait o); [reflexivity|].
  destruct (oo_create o); cbn; rewrite <- app_assoc; reflexivity.
Qed.

Lemma initialize_open_eq (t : TimeoutType) (o : OpenOutcome) (w : World)
    (h : AiormqChannel) :
  ready (self w) = false ->
  _is_closed_by_user (self w) = false ->
  oo_wait o = None ->
  oo_create o = Ok h ->
  initialize t o w
  = if ch_is_closed h then
      (Raise (ChannelInvalidStateError msg_closed),
       {| self := set_ready true (opened_self o h (self w));
          trace := trace w
                   ++ [EvConnectedWait (conn_id (_connection (self w)));
                       EvCreateChannel (oo_transport o)
                         (publisher_confirms (self w))
                         (_on_return_raises (self w))
                         (_channel_number (self w));
                       EvReadySet] |})
    else
      (Ok tt,
       {| self := set_channel
                    (Some (add_return_callback (self_id (self w))
                                               {| uc_channel := h |}))
                    (set_ready true (opened_self o h (self w)));
          trace := trace w
                   ++ [EvConnectedWait (conn_id (_connection (self w)));
                       EvCreateChannel (oo_transport o)
                         (publisher_confirms (self w))
                         (_on_return_raises (self w))
                         (_channel_number (self w));
                       EvReadySet;
                       EvAddReturnCallback (ch_id h) (self_id (self w))] |}).
Proof.
  intros Hr Hu Hw Hc.
  rewrite initialize_eq, Hr, Hu, open_eq, Hw, Hc.
  unfold _on_initialized. unfold bind at 1. rewrite channel_eq.
  cbn [self trace ready set_ready opened_self set_default_exchange
       set_delivery_tag set_channel set_transport negb
       _is_closed_by_user _channel uc_channel].
  rewrite Hu.
  destruct (ch_is_closed h).
  - rewrite <- app_assoc. reflexivity.
  - unfold_m. cbn. rewrite <- !app_assoc. reflexivity.
Qed.

Lemma created_app (a b : list Event) :
  created (a ++ b) = (created a ++ created b)%list.
Proof.
  induction a as [|x a IH]; [reflexivity|].
  destruct x; cbn; rewrite ?IH; reflexivity.
Qed.

(** X1: on a channel whose latch is clear and that the user has not closed,
    an [initialize] for which the connection is there and the transport
    creates an open handle succeeds: the channel is created with the
    channel's own flags and number, exactly once; the latch is set; the
    handle is the created one with the return bridge of this channel
    registered on it; the delivery tag is zero and the default exchange is
    the nameless direct exchange of this channel; the guarded accessor
    answers with that handle. *)
Theorem initialize_opens (t : TimeoutType) (o : OpenOutcome) (w : World)
    (h : AiormqChannel)
    (Hr : ready (self w) = false)
    (Hu : _is_closed_by_user (self w) = false)
    (Hw : oo_wait o = None)
    (Hc : oo_create o = Ok h)
    (Hh : ch_is_closed h = false) :
  fst (initialize t o w) = Ok tt
  /\ ready (self (snd (initialize t o w))) = true
  /\ _channel (self (snd (initialize t o w)))
     = Some (add_return_callback (self_id (self w)) {| uc_channel := h |})
  /\ In (self_id (self w))
        (ch_on_return_callbacks
           (uc_channel (add_return_callback (self_id (self w))
                                            {| uc_channel := h |})))
  /\ _delivery_tag (self (snd (initialize t o w))) = 0%Z
  /\ default_exchange (self (snd (initialize t o w)))
     = Some (EXCHANGE_CLASS (self_id (self w)) "" (Some (inl DIRECT))
                            (Some false) false false false None)
  /\ created (trace (snd (initialize t o w)))
     = (created (trace w)
        ++ [(publisher_confirms (self w), _on_return_raises (self w),
             _channel_number (self w))])%list
  /\ fst (channel (snd (initialize t o w)))
     = Ok (uc_channel (add_return_callback (self_id (self w))
                                           {| uc_channel := h |})).
Proof.
  rewrite (initialize_open_eq t o w h Hr Hu Hw Hc), Hh. cbn [fst snd].
  repeat split.
  - cbn. unfold add_owner.
    destruct (existsb (Nat.eqb (self_id (self w)))
                      (ch_on_return_callbacks h)) eqn:He.
    + apply existsb_exists in He as (x & Hx & Heq).
      apply Nat.eqb_eq in Heq. subst x. exact Hx.
    + apply in_or_app. right. left. reflexivity.
  - cbn [trace]. rewrite created_app. reflexivity.
  - rewrite channel_eq. cbn. rewrite Hu, Hh. reflexivity.
Qed.

Lemma initialize_opens_witness :
  fst (initialize None open_ok (fresh chan0)) = Ok tt
  /\ ready (self opened0) = true
  /\ created (trace opened0) = [(true, false, None)].
Proof.
  pose proof (initialize_opens None open_ok (fresh chan0) handle0
                eq_refl eq_refl eq_refl eq_refl eq_refl)
    as (H1 & H2 & _ & _ & _ & _ & H7 & _).
  split; [exact H1|]. split; [exact H2|]. exact H7.
Defined.

(** X2: when the handle the transport creates is already closed,
    [initialize] fails with the closed-channel error of the guarded
    accessor, but only after it has stored the handle and set the latch:
    the channel then counts as initialized and every further [initialize]
    is refused with "Already initialized". *)
Theorem initialize_fails_with_latch_set (t : TimeoutType) (o : OpenOutcome)
    (w : World) (h : AiormqChannel)
    (Hr : ready (self w) = false)
    (Hu : _is_closed_by_user (self w) = false)
    (Hw : oo_wait o = None)
    (Hc : oo_create o = Ok h)
    (Hh : ch_is_closed h = true) :
  fst (initialize t o w) = Raise (ChannelInvalidStateError msg_closed)
  /\ ready (self (snd (initialize t o w))) = true
  /\ _channel (self (snd (initialize t o w))) = Some {| uc_channel := h |}
  /\ (forall t' o',
         initialize t' o' (snd (initialize t o w))
         = (Raise (RuntimeError "Already initialized"),
            snd (initialize t o w))).
Proof.
  rewrite (initialize_open_eq t o w h Hr Hu Hw Hc), Hh. cbn [fst snd].
  repeat split.
Qed.

Lemma initialize_fails_with_latch_set_witness :
  fst (initialize None open_closed (fresh chan0))
  = Raise (ChannelInvalidStateError msg_closed)
  /\ ready (self (snd (initialize None open_closed (fresh chan0)))) = true.
Proof.
  pose proof (initialize_fails_with_latch_set None open_closed
                (fresh chan0) handle_closed0
                eq_refl eq_refl eq_refl eq_refl eq_refl)
    as (H1 & H2 & _).
  split; [exact H1|exact H2].
Defined.

(** X3: when opening fails, while waiting for the connection or while the
    transport creates the channel, [initialize] raises that very exception
    and leaves the latch clear, the closed-by-user flag unset and the
    handle, the default exchange and the delivery tag as they were; so the
    channel is not spent: a later [initialize] that finds an open handle
    succeeds. *)
Theorem initialize_open_failure (t : TimeoutType) (o : OpenOutcome)
    (w : World) (e : Exn)
    (Hr : ready (self w) = false)
    (Hu : _is_closed_by_user (self w) = false)
    (Hf : fst (_open o w) = Raise e) :
  fst (initialize t o w) = Raise e
  /\ ready (self (snd (initialize t o w))) = false
  /\ _is_closed_by_user (self (snd (initialize t o w))) = false
  /\ _channel (self (snd (initialize t o w))) = _channel (self w)
  /\ default_exchange (self (snd (initialize t o w)))
     = default_exchange (self w)
  /\ _delivery_tag (self (snd (initialize t o w))) = _delivery_tag (self w)
  /\ (forall t' o' h,
         oo_wait o' = None -> oo_create o' = Ok h ->
         ch_is_closed h = false ->
         fst (initialize t' o' (snd (initialize t o w))) = Ok tt).
Proof.
  assert (fst (initialize t o w) = Raise e
          /\ ready (self (snd (initialize t o w))) = false
          /\ _is_closed_by_user (self (snd (initialize t o w))) = false
          /\ _channel (self (snd (initialize t o w))) = _channel (self w)
          /\ default_exchange (self (snd (initialize t o w)))
             = default_exchange (self w)
          /\ _delivery_tag (self (snd (initialize t o w)))
             = _delivery_tag (self w)) as Hall.
  { revert Hf. rewrite initialize_eq, Hr, Hu, open_eq.
    destruct (oo_wait o) as [x|].
    - cbn. intros Hf. inversion Hf; subst. repeat split; assumption.
    - destruct (oo_create o) as [h|x]; cbn; intros Hf; [discriminate|].
      inversion Hf; subst. repeat split; assumption. }
  destruct Hall as (H1 & H2 & H3 & H4 & H5 & H6).
  repeat split; try assumption.
  intros t' o' h Hw' Hc' Hh'.
  rewrite (initialize_open_eq t' o' _ h H2 H3 Hw' Hc'), Hh'. reflexivity.
Qed.

Lemma initialize_open_failure_witness :
  fst (initialize None open_fails (fresh chan0))
  = Raise (ExternalError "channel limit")
  /\ fst (initialize None open_cancelled (fresh chan0))
     = Raise CancelledError
  /\ fst (initialize None open_ok
            (snd (initialize None open_fails (fresh chan0))))
     = Ok tt.
Proof.
  split; [|split].
  - apply (initialize_open_failure None open_fails (fresh chan0));
      reflexivity.
  - apply (initialize_open_failure None open_cancelled (fresh chan0));
      reflexivity.
  - apply (proj2 (proj2 (proj2 (proj2 (proj2 (proj2
             (initialize_open_failure None open_fails (fresh chan0)
                (ExternalError "channel limit")
                eq_refl eq_refl eq_refl)))))) None open_ok handle0);
      reflexivity.
Defined.

(** ** Reopening *)

Lemma reopen_eq (o : OpenOutcome) (w : World) :
  reopen o w
  = match _open o
            {| self := set_is_closed_by_user false
                         (set_transport_connection None
                            (set_channel None (self w)));
               trace := trace w
                        ++ [EvLog DEBUG "Start reopening channel %r";
                            EvLog DEBUG "Reopening channel %r"] |} with
    | (Ok _, w1) =>
        (Ok tt, {| self := set_ready true (self w1);
                   trace := trace w1 ++ [EvReadySet] |})
    | (Raise e, w1) => (Raise e, w1)
    end.
Proof.
  unfold reopen, ready_set. unfold_m. cbn [self trace].
  rewrite <- app_assoc. cbn [app].
  match goal with
  | |- context [_open o ?w0] => destruct (_open o w0) as [[[]|x] w1]
  end; reflexivity.
Qed.

(** X4: a [reopen] whose opening fails raises that exception and leaves the
    channel without any underlying channel reference, with the
    closed-by-user flag cleared and the latch as it was.  When the latch
    was set, the channel still counts as initialized, and [is_closed] and
    the guarded accessor no longer answer: both raise the attribute
    error. *)
Theorem reopen_failure (o : OpenOutcome) (w : World) (e : Exn)
    (Hf : fst (reopen o w) = Raise e) :
  (oo_wait o = Some e \/ oo_create o = Raise e)
  /\ _channel (self (snd (reopen o w))) = None
  /\ _is_closed_by_user (self (snd (reopen o w))) = false
  /\ ready (self (snd (reopen o w))) = ready (self w)
  /\ (ready (self w) = true ->
      fst (is_closed (snd (reopen o w))) = Raise (AttributeError "_channel")
      /\ fst (channel (snd (reopen o w)))
         = Raise (AttributeError "_channel")).
Proof.
  revert Hf. rewrite channel_eq, is_closed_eq, reopen_eq, open_eq.
  destruct (oo_wait o) as [x|].
  - cbn. intros Hf. inversion Hf; subst. repeat split; auto.
    all: rewrite H; reflexivity.
  - destruct (oo_create o) as [h|x]; cbn; intros Hf; [discriminate|].
    inversion Hf; subst. repeat split; auto.
    all: rewrite H; reflexivity.
Qed.

Lemma reopen_failure_witness :
  ready (self opened0) = true
  /\ fst (reopen open_fails opened0) = Raise (ExternalError "channel limit")
  /\ fst (channel (snd (reopen open_fails opened0)))
     = Raise (AttributeError "_channel").
Proof.
  split; [reflexivity|]. split; [reflexivity|].
  apply (reopen_failure open_fails opened0
           (ExternalError "channel limit") eq_refl).
  reflexivity.
Defined.

(** X5: a successful [reopen] logs twice, waits for the connection, has the
    transport create one channel with this channel's flags and number, and
    sets the latch, in this order and nothing else: unlike [initialize] it
    does not register the return bridge, so the return callbacks of the new
    handle are as the transport made them. *)
Theorem reopen_trace (o : OpenOutcome) (w : World)
    (Hok : fst (reopen o w) = Ok tt) :
  trace (snd (reopen o w))
  = (trace w
     ++ [EvLog DEBUG "Start reopening channel %r";
         EvLog DEBUG "Reopening channel %r";
         EvConnectedWait (conn_id (_connection (self w)));
         EvCreateChannel (oo_transport o) (publisher_confirms (self w))
                         (_on_return_raises (self w))
                         (_channel_number (self w));
         EvReadySet])%list
  /\ option_map (fun u => ch_on_return_callbacks (uc_channel u))
                (_channel (self (snd (reopen o w))))
     = match oo_create o with
       | Ok h => Some (ch_on_return_callbacks h)
       | Raise _ => None
       end
  /\ _delivery_tag (self (snd (reopen o w))) = 0%Z.
Proof.
  revert Hok. rewrite reopen_eq, open_eq.
  destruct (oo_wait o) as [x|]; [discriminate|].
  destruct (oo_create o) as [h|x]; [|discriminate].
  cbn. intros _. rewrite <- !app_assoc. repeat split.
Qed.

Lemma reopen_trace_witness :
  fst (reopen open_ok user_closed0) = Ok tt
  /\ option_map (fun u => ch_on_return_callbacks (uc_channel u))
                (_channel (self (snd (reopen open_ok user_closed0))))
     = Some []
  /\ option_map (fun u => ch_on_return_callbacks (uc_channel u))
                (_channel (self opened0))
     = Some [0].
Proof.
  split; [reflexivity|]. split; [|reflexivity].
  apply (reopen_trace open_ok user_closed0 eq_refl).
Defined.

(** X6: whatever state the channel is in (closed by the user, closed by the
    peer, never opened, left without a handle by a failed reopen), a
    [reopen] for which the connection is there and the transport creates an
    open handle succeeds and makes the channel live: [is_closed] answers
    false and the guarded accessor returns the new handle. *)
Theorem reopen_makes_live (o : OpenOutcome) (w : World) (h : AiormqChannel)
    (Hw : oo_wait o = None)
    (Hc : oo_create o = Ok h)
    (Hh : ch_is_closed h = false) :
  fst (reopen o w) = Ok tt
  /\ is_closed (snd (reopen o w)) = (Ok false, snd (reopen o w))
  /\ channel (snd (reopen o w)) = (Ok h, snd (reopen o w)).
Proof.
  rewrite channel_eq, is_closed_eq, reopen_eq, open_eq, Hw, Hc.
  cbn. rewrite Hh. repeat split.
Qed.

Lemma reopen_makes_live_witness :
  fst (channel user_closed0) = Raise (ChannelInvalidStateError msg_closed)
  /\ fst (channel (snd (reopen open_ok user_closed0))) = Ok handle0
  /\ fst (channel (snd (reopen open_ok
                          (snd (reopen open_fails opened0)))))
     = Ok handle0.
Proof.
  split; [reflexivity|]. split.
  - pose proof (reopen_makes_live open_ok user_closed0 handle0
                  eq_refl eq_refl eq_refl) as (_ & _ & H).
    rewrite H. reflexivity.
  - pose proof (reopen_makes_live open_ok
                  (snd (reopen open_fails opened0)) handle0
                  eq_refl eq_refl eq_refl) as (_ & _ & H).
    rewrite H. reflexivity.
Defined.

(** ** Closing and opening again *)

(** X7: after a close event of the transport, whatever the channel was
    before, [initialize] is accepted again exactly when the user has not
    closed the channel: with the connection there and an open handle it
    succeeds and sets the latch; on a channel the user has closed it is
    refused with "Can't initialize closed channel" and changes nothing. *)
Theorem initialize_after_close_event (closing : Future) (t : TimeoutType)
    (o : OpenOutcome) (w : World) (h : AiormqChannel)
    (Hw : oo_wait o = None)
    (Hc : oo_create o = Ok h)
    (Hh : ch_is_closed h = false) :
  fst (initialize t o (snd (close_event closing w)))
  = (if _is_closed_by_user (self w)
     then Raise (RuntimeError "Can't initialize closed channel")
     else Ok tt)
  /\ ready (self (snd (initialize t o (snd (close_event closing w)))))
     = negb (_is_closed_by_user (self w))
  /\ (_is_closed_by_user (self w) = true ->
      snd (initialize t o (snd (close_event closing w)))
      = snd (close_event closing w)).
Proof.
  pose proof (close_event_self closing w) as Hs.
  remember (snd (close_event closing w)) as w1 eqn:Hw1. clear Hw1.
  assert (ready (self w1) = false) as Hr by (rewrite Hs; reflexivity).
  assert (_is_closed_by_user (self w1) = _is_closed_by_user (self w))
    as Hu' by (rewrite Hs; reflexivity).
  destruct (_is_closed_by_user (self w)) eqn:Hu.
  - rewrite initialize_rejects by (right; exact Hu').
    rewrite Hr. cbn [fst snd negb]. repeat split. exact Hr.
  - rewrite (initialize_open_eq t o w1 h Hr Hu' Hw Hc), Hh.
    cbn [fst snd negb]. repeat split. discriminate.
Qed.

Lemma initialize_after_close_event_witness :
  fst (initialize None open_ok peer_closed0) = Ok tt
  /\ fst (initialize None open_ok
            (snd (close_event (FutDone None) user_closed0)))
     = Raise (RuntimeError "Can't initialize closed channel").
Proof.
  split.
  - apply (initialize_after_close_event
             (FutDone (Some (ExternalError "NOT_FOUND"))) None open_ok
             opened0 handle0 eq_refl eq_refl eq_refl).
  - apply (initialize_after_close_event (FutDone None) None open_ok
             user_closed0 handle0 eq_refl eq_refl eq_refl).
Defined.

(** X8: [close] on a channel whose latch is clear only logs a warning: it
    requests no close of any underlying channel and does not mark the
    channel closed by the user, so a channel closed before it was opened
    can still be initialized. *)
Theorem close_unopened_is_harmless (e : option Exn) (co : CloseOutcome)
    (w : World) (Hr : ready (self w) = false) :
  close e co w
  = (Ok tt, {| self := self w;
               trace := trace w ++ [EvLog WARNING "Channel not opened"] |})
  /\ (forall t o h,
         _is_closed_by_user (self w) = false ->
         oo_wait o = None -> oo_create o = Ok h ->
         ch_is_closed h = false ->
         fst (initialize t o (snd (close e co w))) = Ok tt).
Proof.
  assert (close e co w
          = (Ok tt, {| self := self w;
                       trace := trace w
                                ++ [EvLog WARNING "Channel not opened"] |}))
    as Hclose.
  { unfold close, is_initialized. unfold_m. rewrite Hr. reflexivity. }
  split; [exact Hclose|].
  intros t o h Hu Hw Hc Hh. rewrite Hclose. cbn [snd].
  match goal with
  | |- fst (initialize t o ?w1) = _ =>
      rewrite (initialize_open_eq t o w1 h Hr Hu Hw Hc), Hh
  end.
  reflexivity.
Qed.

Lemma close_unopened_is_harmless_witness :
  fst (close None close_clean (fresh chan0)) = Ok tt
  /\ fst (initialize None open_ok
            (snd (close None close_clean (fresh chan0))))
     = Ok tt.
Proof.
  pose proof (close_unopened_is_harmless None close_clean (fresh chan0)
                eq_refl) as (H1 & H2).
  split.
  - rewrite H1. reflexivity.
  - apply (H2 None open_ok handle0); reflexivity.
Defined.

(** ** What every run keeps *)

Lemma on_initialized_settings (w : World) :
  settings (self (snd (_on_initialized w))) = settings (self w).
Proof.
  unfold _on_initialized. unfold bind at 1. rewrite channel_eq.
  destruct (negb (ready (self w))); [reflexivity|].
  destruct (_is_closed_by_user (self w)); [reflexivity|].
  destruct (_channel (self w)) as [u|]; [|reflexivity].
  destruct (ch_is_closed (uc_channel u)); reflexivity.
Qed.

Lemma call_settings (k : Call) (w : World) :
  settings (self (snd (call k w))) = settings (self w).
Proof.
  destruct k as [t o|e o|o|f]; cbn [call].
  - rewrite initialize_eq.
    destruct (ready (self w)); [reflexivity|].
    destruct (_is_closed_by_user (self w)); [reflexivity|].
    rewrite open_eq.
    destruct (oo_wait o); [reflexivity|].
    destruct (oo_create o); [|reflexivity].
    rewrite on_initialized_settings. reflexivity.
  - rewrite close_self.
    destruct (ready (self w)); [|reflexivity].
    destruct (_channel (self w)), (co_closing o); reflexivity.
  - rewrite reopen_eq, open_eq.
    destruct (oo_wait o); [reflexivity|].
    destruct (oo_create o); reflexivity.
  - rewrite close_event_self. reflexivity.
Qed.

(** X9: no run of [initialize], [close], [reopen] and close events, with
    whatever outcomes, changes the identity of the channel, its loop and
    connection, the configured channel number, [publisher_confirms],
    [_on_return_raises] or the subscriptions of the close and return
    callback collections. *)
Theorem lifecycle_keeps_settings (ks : list Call) (w : World) :
  settings (self (snd (perform ks w))) = settings (self w).
Proof.
  revert w. induction ks as [|k ks IH]; intros w; [reflexivity|].
  rewrite perform_snd_cons, IH. apply call_settings.
Qed.

Lemma perform_fst_cons (k : Call) (ks : list Call) (w : World) :
  fst (perform (k :: ks) w)
  = fst (call k w) :: fst (perform ks (snd (call k w))).
Proof.
  cbn [perform]. destruct (call k w) as [r w1]. cbn [fst snd].
  destruct (perform ks w1); reflexivity.
Qed.

Lemma call_keeps_flag (k : Call) (w : World) :
  is_reopen k = false ->
  _is_closed_by_user (self w) = true ->
  _is_closed_by_user (self (snd (call k w))) = true.
Proof.
  intros Hk Hu. destruct k as [t o|e o|o|f]; cbn [call];
    try discriminate.
  - rewrite initialize_rejects by (right; exact Hu). exact Hu.
  - apply close_keeps_flag, Hu.
  - rewrite close_event_self. exact Hu.
Qed.

(** X10: once the user has closed the channel, it stays closed by the user
    through every run without a [reopen]: the flag remains set, every
    [initialize] of the run is refused with a lifecycle error, and
    [is_closed] answers true at the end. *)
Theorem user_close_is_final_without_reopen (ks : list Call) (w : World)
    (Hks : existsb is_reopen ks = false)
    (Hu : _is_closed_by_user (self w) = true) :
  _is_closed_by_user (self (snd (perform ks w))) = true
  /\ forallb is_lifecycle_error
             (initialize_results ks (fst (perform ks w))) = true
  /\ fst (is_closed (snd (perform ks w))) = Ok true.
Proof.
  assert (_is_closed_by_user (self (snd (perform ks w))) = true
          /\ forallb is_lifecycle_error
                     (initialize_results ks (fst (perform ks w))) = true)
    as [Hflag Hres].
  { revert w Hks Hu. induction ks as [|k ks IH]; intros w Hks Hu.
    - split; [exact Hu|reflexivity].
    - cbn [existsb] in Hks. apply orb_false_iff in Hks as [Hk Hks].
      rewrite perform_snd_cons, perform_fst_cons.
      destruct (IH (snd (call k w)) Hks (call_keeps_flag k w Hk Hu))
        as [IH1 IH2].
      split; [exact IH1|].
      destruct k as [t o|e o|o|f]; cbn [initialize_results];
        try exact IH2.
      cbn [forallb call] in *. rewrite IH2, andb_true_r.
      rewrite initialize_rejects by (right; exact Hu).
      reflexivity. }
  repeat split; try assumption.
  rewrite is_closed_eq, Hflag, orb_true_r. reflexivity.
Qed.

Lemma user_close_is_final_without_reopen_witness :
  _is_closed_by_user (self user_closed0) = true
  /\ fst (perform [CInitialize None open_ok; CPeerClose (FutDone None);
                   CInitialize None open_ok; CClose None close_clean]
                  user_closed0)
     = [Raise (RuntimeError "Already initialized"); Ok tt;
        Raise (RuntimeError "Can't initialize closed channel"); Ok tt]
  /\ _is_closed_by_user
       (self (snd (perform [CInitialize None open_ok;
                            CPeerClose (FutDone None);
                            CInitialize None open_ok;
                            CClose None close_clean]
                           user_closed0)))
     = true.
Proof.
  split; [reflexivity|]. split; [reflexivity|].
  apply (user_close_is_final_without_reopen
           [CInitialize None open_ok; CPeerClose (FutDone None);
            CInitialize None open_ok; CClose None close_clean]
           user_closed0);
    reflexivity.
Defined.

(** ** The channels the transport is asked to create *)

Lemma dispatch_created (sender : ObjId) (hs : CallbackCollection)
    (arg : option Exn) :
  forall w,
    created (trace (snd (CallbackCollection_call sender hs arg w)))
    = created (trace w).
Proof.
  induction hs as [|h hs IH]; intros w; [reflexivity|].
  rewrite CallbackCollection_call_cons, IH. cbn [trace].
  rewrite created_app. destruct (h_raises h); cbn; apply app_nil_r.
Qed.

Lemma on_close_created (closing : Future) (w : World) :
  created (trace (snd (__on_close closing w))) = created (trace w).
Proof.
  unfold __on_close, ready_clear. unfold_m.
  destruct closing as [reason|]; cbn.
  - pose proof (dispatch_created (self_id (self w))
                  (close_callbacks (self w)) reason w) as Hd.
    destruct (CallbackCollection_call_spec
                (self_id (self w)) (close_callbacks (self w)) reason w)
      as (evs & Hrun & _).
    unfold_m. rewrite Hrun in *. cbn in *.
    rewrite created_app. cbn. rewrite app_nil_r. exact Hd.
  - rewrite created_app. apply app_nil_r.
Qed.

Lemma close_event_created (closing : Future) (w : World) :
  created (trace (snd (close_event closing w))) = created (trace w).
Proof.
  unfold close_event. unfold_m. cbn [snd].
  rewrite on_close_created. reflexivity.
Qed.

Lemma close_created (e : option Exn) (o : CloseOutcome) (w : World) :
  created (trace (snd (close e o w))) = created (trace w).
Proof.
  unfold close, is_initialized, UnderlayChannel_close.
  unfold bind at 1. unfold read at 1.
  destruct (ready (self w)); cbn [negb].
  - unfold bind at 1. unfold emit at 1. unfold try_finally.
    unfold bind at 1. unfold getattr. cbn [self trace].
    destruct (_channel (self w)) as [u|] eqn:Hu.
    + unfold bind at 1. unfold bind at 1. unfold emit at 1.
      destruct (co_closing o) as [f|].
      * match goal with
        | |- context [close_event f ?w1] =>
            pose proof (close_event_created f w1) as Hev;
            destruct (close_event f w1) as [r w2] eqn:Hrun
        end.
        assert (r = Ok tt) as ->.
        { unfold close_event in Hrun. unfold_m. cbn in Hrun.
          inversion Hrun; reflexivity. }
        cbn [snd trace] in Hev. rewrite !created_app in Hev.
        cbn in Hev. rewrite !app_nil_r in Hev.
        unfold_m. destruct (co_raises o); cbn; exact Hev.
      * unfold_m. destruct (co_raises o); cbn;
          rewrite !created_app; cbn; rewrite !app_nil_r; reflexivity.
    + cbn. rewrite created_app. apply app_nil_r.
  - unfold_m. cbn. rewrite created_app. apply app_nil_r.
Qed.

Lemma on_initialized_created (w : World) :
  created (trace (snd (_on_initialized w))) = created (trace w).
Proof.
  unfold _on_initialized. unfold bind at 1. rewrite channel_eq.
  destruct (negb (ready (self w))); [reflexivity|].
  destruct (_is_closed_by_user (self w)); [reflexivity|].
  destruct (_channel (self w)) as [u|]; [|reflexivity].
  destruct (ch_is_closed (uc_channel u)); [reflexivity|].
  unfold_m. cbn. rewrite created_app. apply app_nil_r.
Qed.

Lemma call_created (k : Call) (w : World) :
  exists l,
    created (trace (snd (call k w))) = (created (trace w) ++ l)%list
    /\ Forall (fun x => x = (publisher_confirms (self w),
                             _on_return_raises (self w),
                             _channel_number (self w))) l
    /\ length l <= (if opens k then 1 else 0).
Proof.
  destruct k as [t o|e o|o|f]; cbn [call opens].
  - rewrite initialize_eq.
    destruct (ready (self w));
      [exists []; rewrite app_nil_r; repeat split; auto|].
    destruct (_is_closed_by_user (self w));
      [exists []; rewrite app_nil_r; repeat split; auto|].
    rewrite open_eq.
    destruct (oo_wait o).
    + exists []. cbn. rewrite created_app, app_nil_r. cbn.
      rewrite app_nil_r. repeat split; auto.
    + destruct (oo_create o).
      * rewrite on_initialized_created. cbn [trace].
        rewrite !created_app. cbn. rewrite app_nil_r.
        eexists. split; [reflexivity|]. split; [|cbn; auto].
        repeat constructor.
      * cbn. rewrite created_app. cbn.
        eexists. split; [reflexivity|]. split; [|cbn; auto].
        repeat constructor.
  - exists []. rewrite close_created, app_nil_r. repeat split; auto.
  - rewrite reopen_eq, open_eq.
    destruct (oo_wait o).
    + exists []. cbn. rewrite !created_app, app_nil_r. cbn.
      rewrite !app_nil_r. repeat split; auto.
    + destruct (oo_create o); cbn; rewrite !created_app; cbn;
        rewrite ?app_nil_r.
      * eexists. split; [reflexivity|]. split; [|cbn; auto].
        repeat constructor.
      * eexists. split; [reflexivity|]. split; [|cbn; auto].
        repeat constructor.
  - exists []. rewrite close_event_created, app_nil_r.
    repeat split; auto.
Qed.

(** X11: in every run, the transport is asked to create a channel at most
    once per [initialize] or [reopen] and never by a close, and each such
    request carries the [publisher_confirms], [on_return_raises] and
    channel number the channel holds. *)
Theorem channels_created_with_settings (ks : list Call) (w : World) :
  exists l,
    created (trace (snd (perform ks w))) = (created (trace w) ++ l)%list
    /\ Forall (fun x => x = (publisher_confirms (self w),
                             _on_return_raises (self w),
                             _channel_number (self w))) l
    /\ length l <= length (filter opens ks).
Proof.
  revert w. induction ks as [|k ks IH]; intros w.
  - exists []. cbn. rewrite app_nil_r. repeat split; auto.
  - rewrite perform_snd_cons.
    destruct (call_created k w) as (l1 & H1 & F1 & L1).
    destruct (IH (snd (call k w))) as (l2 & H2 & F2 & L2).
    pose proof (call_settings k w) as Hs. unfold settings in Hs.
    assert (publisher_confirms (self (snd (call k w)))
            = publisher_confirms (self w)) as Hpc by congruence.
    assert (_on_return_raises (self (snd (call k w)))
            = _on_return_raises (self w)) as Horr by congruence.
    assert (_channel_number (self (snd (call k w)))
            = _channel_number (self w)) as Hnum by congruence.
    rewrite Hpc, Horr, Hnum in F2.
    exists (l1 ++ l2)%list. rewrite H2, H1, app_assoc.
    split; [reflexivity|]. split; [apply Forall_app; split; assumption|].
    rewrite length_app. cbn [filter].
    destruct (opens k); cbn [length] in *; lia.
Qed.

(** ** The channel number *)

Lemma number_eq (w : World) :
  number w
  = (if ready (self w) then
       match fst (channel w) with
       | Ok h => Ok (Some (ch_number h))
       | Raise e => Raise e
       end
     else Ok (_channel_number (self w)), w).
Proof.
  unfold number, is_initialized. unfold bind at 1. unfold read at 1.
  destruct (ready (self w)) eqn:Hr; [|reflexivity].
  unfold bind. rewrite channel_eq. cbn [fst].
  destruct (negb (ready (self w))); [reflexivity|].
  destruct (_is_closed_by_user (self w)); [reflexivity|].
  destruct (_channel (self w)) as [u|]; [|reflexivity].
  destruct (ch_is_closed (uc_channel u)); reflexivity.
Qed.

(** X12: [number] never changes the channel.  While the latch is clear it
    answers with the number given at construction, possibly none: also
    after the channel was open and the transport closed it, whatever number
    the handle had.  On a live channel it answers with the number of the
    handle.  On a channel whose latch is set and that is closed it raises
    the closed-channel error of the guarded accessor. *)
Theorem number_cases (w : World) :
  snd (number w) = w
  /\ (ready (self w) = false ->
      fst (number w) = Ok (_channel_number (self w)))
  /\ (forall closing,
         fst (number (snd (close_event closing w)))
         = Ok (_channel_number (self w)))
  /\ (forall h,
         fst (channel w) = Ok h -> fst (number w) = Ok (Some (ch_number h)))
  /\ (ready (self w) = true -> fst (is_closed w) = Ok true ->
      fst (number w) = Raise (ChannelInvalidStateError msg_closed)).
Proof.
  split; [rewrite number_eq; reflexivity|].
  split; [intros Hr; rewrite number_eq, Hr; reflexivity|].
  split; [intros closing; rewrite number_eq, close_event_self;
          reflexivity|].
  split.
  - intros h Hh. rewrite number_eq. cbn [fst]. rewrite Hh.
    revert Hh. rewrite channel_eq. cbn [fst].
    destruct (ready (self w)); [reflexivity|discriminate].
  - intros Hr. rewrite number_eq, channel_eq, is_closed_eq, Hr.
    cbn [fst negb orb].
    destruct (_is_closed_by_user (self w)); [reflexivity|].
    destruct (_channel (self w)) as [u|]; [|discriminate].
    destruct (ch_is_closed (uc_channel u)); [reflexivity|discriminate].
Qed.

Lemma number_cases_witness :
  fst (number (fresh chan0)) = Ok None
  /\ fst (number opened0) = Ok (Some 1%Z)
  /\ fst (number peer_closed0) = Ok None
  /\ fst (number user_closed0) = Raise (ChannelInvalidStateError msg_closed).
Proof.
  split; [|split; [|split]].
  - apply (proj1 (proj2 (number_cases (fresh chan0)))). reflexivity.
  - apply (proj1 (proj2 (proj2 (proj2 (number_cases opened0))))
             (add_return_bridge0 handle0)).
    reflexivity.
  - apply (proj1 (proj2 (proj2 (number_cases opened0)))).
  - apply (proj2 (proj2 (proj2 (proj2 (number_cases user_closed0)))));
      reflexivity.
Defined.

(** X13: printing a channel can fail and can mislead: [__str__] raises the
    closed-channel error when the latch is set and the channel is closed;
    it prints "Not initialized channel" for a channel constructed without a
    number (or with number 0) once the transport has closed it, even though
    the channel was initialized before; on a live channel whose handle has
    a non-zero number it prints that number. *)
Theorem str_cases (w : World) :
  (ready (self w) = true -> fst (is_closed w) = Ok true ->
   fst (__str__ w) = Raise (ChannelInvalidStateError msg_closed))
  /\ (forall closing,
         _channel_number (self w) = None
         \/ _channel_number (self w) = Some 0%Z ->
         fst (__str__ (snd (close_event closing w)))
         = Ok "Not initialized channel")
  /\ (forall h,
         fst (channel w) = Ok h -> ch_number h <> 0%Z ->
         fst (__str__ w) = Ok (format_int (ch_number h))).
Proof.
  unfold __str__. unfold_m.
  split; [|split].
  - intros Hr Hc. rewrite number_eq. revert Hc.
    rewrite channel_eq, is_closed_eq, Hr. cbn [fst negb orb].
    destruct (_is_closed_by_user (self w)); [reflexivity|].
    destruct (_channel (self w)) as [u|]; [|discriminate].
    destruct (ch_is_closed (uc_channel u)); [reflexivity|discriminate].
  - intros closing Hnum. rewrite number_eq, close_event_self.
    cbn [fst ready set_ready _channel_number set_channel].
    destruct Hnum as [-> | ->]; reflexivity.
  - intros h Hh Hz. rewrite number_eq. cbn [fst]. rewrite Hh.
    revert Hh. rewrite channel_eq. cbn [fst].
    destruct (ready (self w)); [|discriminate]. intros _.
    apply Z.eqb_neq in Hz. rewrite Hz. reflexivity.
Qed.

Lemma str_cases_witness :
  fst (__str__ user_closed0) = Raise (ChannelInvalidStateError msg_closed)
  /\ fst (__str__ peer_closed0) = Ok "Not initialized channel"
  /\ fst (__str__ opened0) = Ok "1".
Proof.
  split; [|split].
  - apply (proj1 (str_cases user_closed0)); reflexivity.
  - apply (proj1 (proj2 (str_cases opened0))). left. reflexivity.
  - apply (proj2 (proj2 (str_cases opened0))
             (add_return_bridge0 handle0)).
    + reflexivity.
    + discriminate.
Defined.

(** ** The channel as a context manager and as an awaitable *)

(** X14: entering the context of a channel whose latch is set does nothing
    and returns the channel, also when that channel is closed, whereas
    awaiting the channel then fails with "Already initialized"; on a
    channel whose latch is clear, entering and awaiting are the same
    [initialize]. *)
Theorem aenter_versus_await (o : OpenOutcome) (w : World) :
  (ready (self w) = true ->
   __aenter__ o w = (Ok (self_id (self w)), w)
   /\ __await__ o w = (Raise (RuntimeError "Already initialized"), w))
  /\ (ready (self w) = false -> __aenter__ o w = __await__ o w).
Proof.
  unfold __aenter__, __await__, is_initialized.
  split; intros Hr.
  - split.
    + unfold_m. rewrite Hr. reflexivity.
    + unfold bind. rewrite initialize_rejects by (left; exact Hr).
      rewrite Hr. reflexivity.
  - unfold bind at 1. unfold read at 1. rewrite Hr. reflexivity.
Qed.

Lemma aenter_versus_await_witness :
  fst (is_closed user_closed0) = Ok true
  /\ __aenter__ open_ok user_closed0 = (Ok 0, user_closed0)
  /\ __await__ open_ok user_closed0
     = (Raise (RuntimeError "Already initialized"), user_closed0)
  /\ __aenter__ open_ok (fresh chan0) = __await__ open_ok (fresh chan0).
Proof.
  split; [reflexivity|]. split; [|split].
  - apply (proj1 (aenter_versus_await open_ok user_closed0)). reflexivity.
  - apply (proj1 (aenter_versus_await open_ok user_closed0)). reflexivity.
  - apply (proj2 (aenter_versus_await open_ok (fresh chan0))). reflexivity.
Defined.

(** X15: leaving the context closes the channel without passing on the
    exception in flight: [__aexit__] does what [close] does without one.
    When the channel was live and the close notification arrives during
    the exit, the channel is left closed by the user with the latch clear,
    and entering its context again fails with "Can't initialize closed
    channel" and changes nothing. *)
Theorem aexit_then_aenter (exc_type : option string) (exc_val : option Exn)
    (exc_tb : option ObjId) (co : CloseOutcome) (o : OpenOutcome)
    (w : World) (u : UnderlayChannel) (f : Future)
    (Hr : ready (self w) = true)
    (Hc : _channel (self w) = Some u)
    (Hn : co_closing co = Some f) :
  __aexit__ exc_type exc_val exc_tb co w = close None co w
  /\ _is_closed_by_user (self (snd (__aexit__ exc_type exc_val exc_tb co w)))
     = true
  /\ ready (self (snd (__aexit__ exc_type exc_val exc_tb co w))) = false
  /\ __aenter__ o (snd (__aexit__ exc_type exc_val exc_tb co w))
     = (Raise (RuntimeError "Can't initialize closed channel"),
        snd (__aexit__ exc_type exc_val exc_tb co w)).
Proof.
  unfold __aexit__.
  assert (close exc_val co w = close None co w) as -> by reflexivity.
  pose proof (close_self None co w) as Hs. rewrite Hr, Hc, Hn in Hs.
  remember (snd (close None co w)) as w1 eqn:Hw1. clear Hw1.
  assert (ready (self w1) = false) as Hr1 by (rewrite Hs; reflexivity).
  assert (_is_closed_by_user (self w1) = true) as Hu1
      by (rewrite Hs; reflexivity).
  repeat split; try assumption.
  unfold __aenter__, is_initialized. unfold bind at 1. unfold read at 1.
  rewrite Hr1. cbn [negb]. unfold bind.
  rewrite initialize_rejects by (right; exact Hu1). rewrite Hr1.
  reflexivity.
Qed.

Lemma aexit_then_aenter_witness :
  fst (__aexit__ (Some "ValueError") (Some (ExternalError "boom")) None
                 close_clean opened0) = Ok tt
  /\ fst (__aenter__ open_ok
            (snd (__aexit__ (Some "ValueError")
                            (Some (ExternalError "boom")) None
                            close_clean opened0)))
     = Raise (RuntimeError "Can't initialize closed channel").
Proof.
  split; [reflexivity|].
  pose proof (aexit_then_aenter (Some "ValueError")
                (Some (ExternalError "boom")) None close_clean open_ok
                opened0 _ (FutDone None) eq_refl eq_refl eq_refl)
    as (_ & _ & _ & H).
  rewrite H. reflexivity.
Defined.

(** ** Operations forwarded to the live handle *)

Lemma request_eq (q : ObjId -> Request) (reply : Result Reply) (x : Wire) :
  request q reply x
  = match fst (channel (world x)) with
    | Ok h => (reply, {| world := world x;
                         sent := sent x ++ [q (ch_id h)];
                         warnings := warnings x |})
    | Raise e => (Raise e, x)
    end.
Proof.
  unfold request, bindW, lift. rewrite channel_eq. cbn [fst].
  destruct x as [w s ws]. cbn [world sent warnings].
  destruct (negb (ready (self w))); [reflexivity|].
  destruct (_is_closed_by_user (self w)); [reflexivity|].
  destruct (_channel (self w)) as [u|]; [|reflexivity].
  destruct (ch_is_closed (uc_channel u)); reflexivity.
Qed.

(** X16: [queue_delete], [exchange_delete] and [flow] never change the
    channel.  Without a live handle each fails with the error of the
    guarded accessor and sends nothing.  With a live handle each sends
    exactly one request through it, carrying the arguments it was given,
    and answers with what the broker answers, be it a reply or an error,
    unchanged. *)
Theorem forwarded_operations (name : string) (timeout : TimeoutType)
    (if_unused if_empty nowait active : bool) (reply : Result Reply)
    (x : Wire) :
  match fst (channel (world x)) with
  | Raise e =>
      queue_delete name timeout if_unused if_empty nowait reply x
      = (Raise e, x)
      /\ exchange_delete name timeout if_unused nowait reply x
         = (Raise e, x)
      /\ flow active reply x = (Raise e, x)
  | Ok h =>
      queue_delete name timeout if_unused if_empty nowait reply x
      = (reply,
         {| world := world x;
            sent := sent x ++ [ReqQueueDelete (ch_id h) name if_unused
                                              if_empty nowait timeout];
            warnings := warnings x |})
      /\ exchange_delete name timeout if_unused nowait reply x
         = (reply,
            {| world := world x;
               sent := sent x ++ [ReqExchangeDelete (ch_id h) name
                                                    if_unused nowait
                                                    timeout];
               warnings := warnings x |})
      /\ flow active reply x
         = (reply,
            {| world := world x;
               sent := sent x ++ [ReqFlow (ch_id h) active];
               warnings := warnings x |})
  end.
Proof.
  unfold queue_delete, exchange_delete, flow. rewrite !request_eq.
  destruct (fst (channel (world x))); repeat split.
Qed.

(** X17: [set_qos] never changes the channel.  When [all_channels] is
    given it takes the place of [global_] in the request, and the
    deprecation warning is issued first, also when the channel then turns
    out not to be live.  Without a live handle [set_qos] fails with the
    error of the guarded accessor and sends nothing; with one it sends
    exactly one [basic_qos] with the given prefetch values and timeout and
    answers with what the broker answers. *)
Theorem set_qos_forwards (prefetch_count prefetch_size : Z)
    (global_ : bool) (timeout : TimeoutType) (all_channels : option bool)
    (reply : Result Reply) (x : Wire) :
  set_qos prefetch_count prefetch_size global_ timeout all_channels reply x
  = let warned :=
      {| world := world x; sent := sent x;
         warnings := warnings x
                     ++ match all_channels with
                        | Some _ => [msg_all_channels]
                        | None => []
                        end |} in
    match fst (channel (world x)) with
    | Raise e => (Raise e, warned)
    | Ok h =>
        (reply,
         {| world := world x;
            sent := sent x
                    ++ [ReqBasicQos (ch_id h) prefetch_count prefetch_size
                                    match all_channels with
                                    | Some a => a
                                    | None => global_
                                    end
                                    timeout];
            warnings := warnings warned |})
    end.
Proof.
  unfold set_qos. cbv zeta.
  destruct all_channels as [a|].
  - unfold bindW at 1. unfold bindW at 1. unfold warn, retW.
    rewrite request_eq. cbn [world sent warnings].
    destruct (fst (channel (world x))); reflexivity.
  - unfold bindW at 1. unfold retW. rewrite request_eq.
    rewrite app_nil_r. destruct x as [w s ws]. cbn [world sent warnings].
    destruct (fst (channel w)); reflexivity.
Qed.

(** X18: [get_queue] with [ensure] set is [declare_queue] of that name with
    [passive] set and everything else at its default; with [ensure] unset
    it returns the local Queue object of this channel and sends nothing,
    whether the channel is live or not.  [declare_queue] never changes the
    channel; without a live handle it fails with the error of the guarded
    accessor and sends nothing; with one it sends exactly one declare of
    the Queue built from its arguments and returns that Queue when the
    broker accepts, or raises what the broker raises. *)
Theorem queue_operations (name : option string) (qname : string)
    (durable exclusive passive auto_delete : bool)
    (arguments : Arguments_t) (timeout : TimeoutType)
    (reply : Result Reply) (x : Wire) :
  get_queue qname true reply x
  = declare_queue (Some qname) false false true false None None reply x
  /\ get_queue qname false reply x
     = (Ok (QUEUE_CLASS (self_id (self (world x))) (Some qname) false false
                        false None true), x)
  /\ declare_queue name durable exclusive passive auto_delete arguments
                   timeout reply x
     = let queue :=
         QUEUE_CLASS (self_id (self (world x))) name durable exclusive
                     auto_delete arguments passive in
       match fst (channel (world x)), reply with
       | Raise e, _ => (Raise e, x)
       | Ok h, r =>
           (match r with
            | Ok _ => Ok queue
            | Raise e => Raise e
            end,
            {| world := world x;
               sent := sent x ++ [ReqQueueDeclare (ch_id h) queue timeout];
               warnings := warnings x |})
       end.
Proof.
  split; [reflexivity|]. split.
  - unfold get_queue, bindW, lift, retW. unfold_m.
    destruct x as [[c tr] s ws]; reflexivity.
  - unfold declare_queue, Queue_declare. cbv zeta.
    unfold bindW at 1. unfold lift at 1. unfold read at 1.
    assert ({| world := world x; sent := sent x; warnings := warnings x |}
            = x) as -> by (destruct x; reflexivity).
    unfold bindW at 1. unfold bindW at 1. rewrite request_eq.
    destruct (fst (channel (world x))); [|reflexivity].
    destruct reply; reflexivity.
Qed.

(** ** Declaring an exchange *)

(** X19: [declare_exchange] never changes the channel.  The Exchange it
    declares is bound to this channel and carries the given settings,
    except that a [durable] left at [None] becomes [False] when
    [auto_delete] is set.  Without a live handle it fails with the error of
    the guarded accessor and declares nothing.  With one it issues exactly
    one declare; when the broker rejects it, that error is raised; when the
    broker accepts, the declaration is logged and the Exchange
    returned. *)
Theorem declare_exchange_sends (name : string)
    (type : ExchangeType + string) (durable : option bool)
    (auto_delete internal passive : bool) (arguments : Arguments_t)
    (timeout : TimeoutType) (reply : option Exn) (w : World) :
  declare_exchange name type durable auto_delete internal passive arguments
                   timeout reply w
  = let exchange :=
      EXCHANGE_CLASS (self_id (self w)) name (Some type)
                     match durable with
                     | Some b => Some b
                     | None => if auto_delete then Some false else None
                     end
                     auto_delete internal passive arguments in
    match fst (channel w), reply with
    | Raise e, _ => (Raise e, w)
    | Ok h, Some e =>
        (Raise e,
         {| self := self w;
            trace := trace w
                     ++ [EvExchangeDeclare (ch_id h) exchange timeout] |})
    | Ok h, None =>
        (Ok exchange,
         {| self := self w;
            trace := trace w
                     ++ [EvExchangeDeclare (ch_id h) exchange timeout;
                         EvLog DEBUG "Exchange declared %r"] |})
    end.
Proof.
  unfold declare_exchange, Exchange_declare. cbv zeta.
  unfold bind at 1. unfold read at 1.
  unfold bind at 1. unfold bind at 1.
  rewrite channel_eq. cbn [fst].
  assert ((if auto_delete
              && match durable with Some _ => false | None => true end
           then Some false else durable)
          = match durable with
            | Some b => Some b
            | None => if auto_delete then Some false else None
            end) as ->
      by (destruct auto_delete, durable; reflexivity).
  destruct (negb (ready (self w))); [reflexivity|].
  destruct (_is_closed_by_user (self w)); [reflexivity|].
  destruct (_channel (self w)) as [u|]; [|reflexivity].
  destruct (ch_is_closed (uc_channel u)); [reflexivity|].
  unfold_m. destruct reply; cbn; rewrite <- ?app_assoc; reflexivity.
Qed.

(** ** What holds of every channel, however it got there *)

Lemma on_initialized_eq (w : World) :
  _on_initialized w
  = match fst (channel w) with
    | Ok h =>
        (Ok tt,
         {| self := set_channel
                      (option_map (add_return_callback (self_id (self w)))
                                  (_channel (self w)))
                      (self w);
            trace := trace w
                     ++ [EvAddReturnCallback (ch_id h)
                                             (self_id (self w))] |})
    | Raise e => (Raise e, w)
    end.
Proof.
  unfold _on_initialized. unfold bind at 1. rewrite channel_eq.
  cbn [fst].
  destruct (negb (ready (self w))); [reflexivity|].
  destruct (_is_closed_by_user (self w)); [reflexivity|].
  destruct (_channel (self w)) as [u|] eqn:Eu; [|reflexivity].
  destruct (ch_is_closed (uc_channel u)); [reflexivity|].
  unfold_m. cbn [self trace]. rewrite Eu. reflexivity.
Qed.

Lemma on_initialized_self (w : World) :
  self (snd (_on_initialized w)) = self w
  \/ self (snd (_on_initialized w))
     = set_channel (option_map (add_return_callback (self_id (self w)))
                               (_channel (self w)))
                   (self w).
Proof.
  rewrite on_initialized_eq.
  destruct (fst (channel w)); [right|left]; reflexivity.
Qed.

Lemma opened_consistently_call (k : Call) (w : World) :
  opened_consistently (self w) ->
  opened_consistently (self (snd (call k w))).
Proof.
  unfold opened_consistently, default_exchange_of.
  intros (Hd & Hr & Ht & Hz).
  destruct k as [t o|e o|o|f]; cbn [call].
  - rewrite initialize_eq.
    destruct (ready (self w)) eqn:Er; [cbn [snd]; intuition congruence|].
    destruct (_is_closed_by_user (self w)) eqn:Eu;
      [cbn [snd]; intuition congruence|].
    rewrite open_eq.
    destruct (oo_wait o); [cbn; intuition congruence|].
    destruct (oo_create o) as [h|x]; [|cbn; intuition congruence].
    match goal with
    | |- context [_on_initialized ?w2] =>
        destruct (on_initialized_self w2) as [E|E]
    end; rewrite E; cbn; intuition congruence.
  - rewrite close_self.
    destruct (ready (self w)) eqn:Er; [|intuition congruence].
    destruct (_channel (self w)) as [u|] eqn:Eu, (co_closing o);
      cbn; rewrite ?Eu; intuition congruence.
  - rewrite reopen_eq, open_eq.
    destruct (oo_wait o); [cbn; intuition congruence|].
    destruct (oo_create o) as [h|x]; cbn; intuition congruence.
  - rewrite close_event_self. cbn.
    destruct (_channel (self w)) as [u|] eqn:Eu; cbn;
      intuition congruence.
Qed.

(** X20: take a channel as constructed and any run of [initialize],
    [close], [reopen] and close events on it, with whatever outcomes.  At
    the end, whenever the latch is set or the channel holds an underlying
    channel, the default exchange is there and is the nameless, direct,
    non-durable exchange bound to this channel, and the transport is
    recorded with the handle; and the delivery tag is zero. *)
Theorem default_exchange_when_opened (s : ObjId) (conn : Connection)
    (num : option Z) (pc orr : bool) (c : Channel) (ks : list Call)
    (Hc : made (__init__ s conn num pc orr) = Ok c) :
  (ready (self (snd (perform ks (fresh c)))) = true
   \/ _channel (self (snd (perform ks (fresh c)))) <> None ->
   default_exchange (self (snd (perform ks (fresh c))))
   = Some (EXCHANGE_CLASS s "" (Some (inl DIRECT)) (Some false) false false
                          false None))
  /\ (_channel (self (snd (perform ks (fresh c)))) <> None ->
      _transport (self (snd (perform ks (fresh c)))) <> None)
  /\ _delivery_tag (self (snd (perform ks (fresh c)))) = 0%Z.
Proof.
  assert (forall ks w, opened_consistently (self w) ->
                       opened_consistently (self (snd (perform ks w))))
    as Hrun.
  { clear. induction ks as [|k ks IH]; intros w Hw; [exact Hw|].
    rewrite perform_snd_cons. apply IH, opened_consistently_call, Hw. }
  assert (opened_consistently (self (fresh c))) as H0.
  { destruct pc, orr; cbn in Hc; inversion Hc; subst;
      unfold opened_consistently; cbn; intuition congruence. }
  assert (self_id (self (snd (perform ks (fresh c)))) = s) as Hid.
  { assert (forall ks w, self_id (self (snd (perform ks w)))
                         = self_id (self w)) as Hkeep.
    { clear. induction ks as [|k ks IH]; intros w; [reflexivity|].
      rewrite perform_snd_cons, IH.
      pose proof (call_settings k w) as Hs. unfold settings in Hs.
      congruence. }
    rewrite Hkeep.
    destruct pc, orr; cbn in Hc; inversion Hc; subst; reflexivity. }
  destruct (Hrun ks (fresh c) H0) as (_ & Hr & Ht & Hz).
  unfold default_exchange_of in Hr. rewrite Hid in Hr.
  repeat split; assumption.
Qed.

Lemma default_exchange_when_opened_witness :
  default_exchange
    (self (snd (perform [CInitialize None open_ok;
                         CClose None close_fails;
                         CReopen open_fails]
                        (fresh chan0))))
  = Some (EXCHANGE_CLASS 0 "" (Some (inl DIRECT)) (Some false) false false
                         false None).
Proof.
  apply (default_exchange_when_opened 0 conn0 None true false chan0
           [CInitialize None open_ok; CClose None close_fails;
            CReopen open_fails] eq_refl).
  left. reflexivity.
Defined.
